(** * RentAutoPro back end: rental, fleet and maintenance controllers

    A shallow embedding of the Express/Sequelize controllers of the
    repository (rentalController.js, vehicleController.js, customerController
    and maintenanceController) together with the parts of the Sequelize
    models they rely on (column defaults, [validate] bounds and the
    [beforeUpdate] hook of Maintenance).

    Modelling conventions

    - A table is a finite map from primary key (the UUID string) to a row.
      Only the columns that the controllers below read or write are carried.
    - Dates are instants in milliseconds since the epoch ([Z]); this is what
      [new Date(s)] yields for the ISO-8601 strings the route validators
      accept, and it is the order the SQL comparisons use.
    - JavaScript numbers holding amounts of money are exact rationals ([Q]);
      the rounding of IEEE-754 doubles is not modelled.  Integer columns
      (mileage, total_days) are [Z].
    - A handler is a function from the database to a new database and an
      outcome; [return res.status(..).json(..)] is the outcome [Sent], a
      rejected promise is [Thrown], and the [try { } catch] around every
      controller turns [Thrown] into the 500 answer.
    - [Model.create] validates every column of the new row and
      [instance.update] validates the values it is given; a value that
      fails its [validate] entry, or a primary key that is already in use,
      rejects the call before anything is written.
    - The clock ([new Date()], read once per request) and the UUID drawn
      for a new row are arguments of the handlers that use them. *)

From Stdlib Require Import ZArith QArith Lia String.
From stdpp Require Import gmap strings list fin_maps.

Local Open Scope string_scope.
Local Open Scope Z_scope.

(** ** JavaScript helpers *)

Definition ms_per_day : Z := 1000 * 60 * 60 * 24.

(** [Math.ceil(a / b)] for an integer numerator and a positive integer
    denominator. *)
Definition ceil_div (a b : Z) : Z := - ((- a) / b).

(** [x || d] on possibly-undefined numbers: [undefined] and [0] are falsy. *)
Definition or_Z (x : option Z) (d : Z) : Z :=
  match x with
  | Some v => if v =? 0 then d else v
  | None => d
  end.

Definition or_Q (x : option Q) (d : Q) : Q :=
  match x with
  | Some v => if Qeq_bool v 0 then d else v
  | None => d
  end.

(** [x || d] on possibly-undefined strings: [undefined] and [''] are falsy. *)
Definition or_string (x : option string) (d : option string) : option string :=
  match x with
  | Some EmptyString => d
  | Some s => Some s
  | None => d
  end.

(** Sequelize's [validate: { min: n }]. *)
Definition min_Z (n v : Z) : bool := n <=? v.
Definition min_Q (n v : Q) : bool := Qle_bool n v.

(** Validators are skipped on a column that holds [null]. *)
Definition min_optZ (n : Z) (v : option Z) : bool :=
  match v with Some z => min_Z n z | None => true end.
Definition min_optQ (n : Q) (v : option Q) : bool :=
  match v with Some q => min_Q n q | None => true end.

(** ** Enumerations of the models *)

Inductive VehicleStatus := available | rented | in_maintenance | inactive.
Inductive RentalStatus := reserved | confirmed | active | completed | cancelled.
Inductive MaintenanceStatus :=
  m_scheduled | m_in_progress | m_completed | m_cancelled | m_overdue.
Inductive Priority := low | medium | high | critical.

Global Instance VehicleStatus_eq_dec : EqDecision VehicleStatus.
Proof. solve_decision. Defined.
Global Instance RentalStatus_eq_dec : EqDecision RentalStatus.
Proof. solve_decision. Defined.
Global Instance MaintenanceStatus_eq_dec : EqDecision MaintenanceStatus.
Proof. solve_decision. Defined.
Global Instance Priority_eq_dec : EqDecision Priority.
Proof. solve_decision. Defined.

(** [rental_status: { [Op.in]: ['reserved', 'confirmed', 'active'] }] *)
Definition in_active_states (s : RentalStatus) : bool :=
  match s with
  | reserved | confirmed | active => true
  | completed | cancelled => false
  end.

(** [rental_status === 'completed' || rental_status === 'cancelled'] *)
Definition is_terminal (s : RentalStatus) : bool :=
  match s with
  | completed | cancelled => true
  | _ => false
  end.

(** ** Rows *)

Module Customer.
Record t := { is_active : bool }.

Inductive assign := Set_is_active (b : bool).

Definition set (a : assign) (c : t) : t :=
  match a with
  | Set_is_active b => {| is_active := b |}
  end.

Definition valid (a : assign) : bool := true.
End Customer.

Module Vehicle.
Record t := {
  daily_rate : Q;
  current_mileage : Z;
  last_maintenance_mileage : option Z;
  next_maintenance_mileage : option Z;
  status : VehicleStatus;
  is_active : bool
}.

Inductive assign :=
| Set_daily_rate (q : Q)
| Set_current_mileage (m : Z)
| Set_last_maintenance_mileage (m : option Z)
| Set_next_maintenance_mileage (m : option Z)
| Set_status (s : VehicleStatus)
| Set_is_active (b : bool).

Definition set (a : assign) (v : t) : t :=
  match a with
  | Set_daily_rate q =>
      {| daily_rate := q; current_mileage := current_mileage v;
         last_maintenance_mileage := last_maintenance_mileage v;
         next_maintenance_mileage := next_maintenance_mileage v;
         status := status v; is_active := is_active v |}
  | Set_current_mileage m =>
      {| daily_rate := daily_rate v; current_mileage := m;
         last_maintenance_mileage := last_maintenance_mileage v;
         next_maintenance_mileage := next_maintenance_mileage v;
         status := status v; is_active := is_active v |}
  | Set_last_maintenance_mileage m =>
      {| daily_rate := daily_rate v; current_mileage := current_mileage v;
         last_maintenance_mileage := m;
         next_maintenance_mileage := next_maintenance_mileage v;
         status := status v; is_active := is_active v |}
  | Set_next_maintenance_mileage m =>
      {| daily_rate := daily_rate v; current_mileage := current_mileage v;
         last_maintenance_mileage := last_maintenance_mileage v;
         next_maintenance_mileage := m;
         status := status v; is_active := is_active v |}
  | Set_status s =>
      {| daily_rate := daily_rate v; current_mileage := current_mileage v;
         last_maintenance_mileage := last_maintenance_mileage v;
         next_maintenance_mileage := next_maintenance_mileage v;
         status := s; is_active := is_active v |}
  | Set_is_active b =>
      {| daily_rate := daily_rate v; current_mileage := current_mileage v;
         last_maintenance_mileage := last_maintenance_mileage v;
         next_maintenance_mileage := next_maintenance_mileage v;
         status := status v; is_active := b |}
  end.

(** The [validate] entries of the model: daily_rate and current_mileage
    have [min: 0]. *)
Definition valid (a : assign) : bool :=
  match a with
  | Set_daily_rate q => min_Q 0 q
  | Set_current_mileage m => min_Z 0 m
  | _ => true
  end.
End Vehicle.

Module Rental.
Record t := {
  customer_id : string;
  vehicle_id : string;
  start_date : Z;
  end_date : Z;
  actual_return_date : option Z;
  daily_rate : Q;
  total_days : Z;
  subtotal : Q;
  tax_amount : Q;
  additional_charges : Q;
  discount_amount : Q;
  total_amount : Q;
  rental_status : RentalStatus;
  pickup_mileage : option Z;
  return_mileage : option Z;
  additional_notes : option string
}.

(** One [key: value] entry of the object literal handed to [update]. *)
Inductive assign :=
| Set_customer_id (x : string)
| Set_vehicle_id (x : string)
| Set_start_date (x : Z)
| Set_end_date (x : Z)
| Set_actual_return_date (x : option Z)
| Set_daily_rate (x : Q)
| Set_total_days (x : Z)
| Set_subtotal (x : Q)
| Set_tax_amount (x : Q)
| Set_additional_charges (x : Q)
| Set_discount_amount (x : Q)
| Set_total_amount (x : Q)
| Set_rental_status (x : RentalStatus)
| Set_pickup_mileage (x : option Z)
| Set_return_mileage (x : option Z)
| Set_additional_notes (x : option string).

Definition set (a : assign) (r : t) : t :=
  match a with
  | Set_customer_id x =>
      {| customer_id := x; vehicle_id := vehicle_id r;
         start_date := start_date r; end_date := end_date r;
         actual_return_date := actual_return_date r;
         daily_rate := daily_rate r; total_days := total_days r;
         subtotal := subtotal r; tax_amount := tax_amount r;
         additional_charges := additional_charges r;
         discount_amount := discount_amount r;
         total_amount := total_amount r; rental_status := rental_status r;
         pickup_mileage := pickup_mileage r;
         return_mileage := return_mileage r;
         additional_notes := additional_notes r |}
  | Set_vehicle_id x =>
      {| customer_id := customer_id r; vehicle_id := x;
         start_date := start_date r; end_date := end_date r;
         actual_return_date := actual_return_date r;
         daily_rate := daily_rate r; total_days := total_days r;
         subtotal := subtotal r; tax_amount := tax_amount r;
         additional_charges := additional_charges r;
         discount_amount := discount_amount r;
         total_amount := total_amount r; rental_status := rental_status r;
         pickup_mileage := pickup_mileage r;
         return_mileage := return_mileage r;
         additional_notes := additional_notes r |}
  | Set_start_date x =>
      {| customer_id := customer_id r; vehicle_id := vehicle_id r;
         start_date := x; end_date := end_date r;
         actual_return_date := actual_return_date r;
         daily_rate := daily_rate r; total_days := total_days r;
         subtotal := subtotal r; tax_amount := tax_amount r;
         additional_charges := additional_charges r;
         discount_amount := discount_amount r;
         total_amount := total_amount r; rental_status := rental_status r;
         pickup_mileage := pickup_mileage r;
         return_mileage := return_mileage r;
         additional_notes := additional_notes r |}
  | Set_end_date x =>
      {| customer_id := customer_id r; vehicle_id := vehicle_id r;
         start_date := start_date r; end_date := x;
         actual_return_date := actual_return_date r;
         daily_rate := daily_rate r; total_days := total_days r;
         subtotal := subtotal r; tax_amount := tax_amount r;
         additional_charges := additional_charges r;
         discount_amount := discount_amount r;
         total_amount := total_amount r; rental_status := rental_status r;
         pickup_mileage := pickup_mileage r;
         return_mileage := return_mileage r;
         additional_notes := additional_notes r |}
  | Set_actual_return_date x =>
      {| customer_id := customer_id r; vehicle_id := vehicle_id r;
         start_date := start_date r; end_date := end_date r;
         actual_return_date := x; daily_rate := daily_rate r;
         total_days := total_days r; subtotal := subtotal r;
         tax_amount := tax_amount r;
         additional_charges := additional_charges r;
         discount_amount := discount_amount r;
         total_amount := total_amount r; rental_status := rental_status r;
         pickup_mileage := pickup_mileage r;
         return_mileage := return_mileage r;
         additional_notes := additional_notes r |}
  | Set_daily_rate x =>
      {| customer_id := customer_id r; vehicle_id := vehicle_id r;
         start_date := start_date r; end_date := end_date r;
         actual_return_date := actual_return_date r; daily_rate := x;
         total_days := total_days r; subtotal := subtotal r;
         tax_amount := tax_amount r;
         additional_charges := additional_charges r;
         discount_amount := discount_amount r;
         total_amount := total_amount r; rental_status := rental_status r;
         pickup_mileage := pickup_mileage r;
         return_mileage := return_mileage r;
         additional_notes := additional_notes r |}
  | Set_total_days x =>
      {| customer_id := customer_id r; vehicle_id := vehicle_id r;
         start_date := start_date r; end_date := end_date r;
         actual_return_date := actual_return_date r;
         daily_rate := daily_rate r; total_days := x;
         subtotal := subtotal r; tax_amount := tax_amount r;
         additional_charges := additional_charges r;
         discount_amount := discount_amount r;
         total_amount := total_amount r; rental_status := rental_status r;
         pickup_mileage := pickup_mileage r;
         return_mileage := return_mileage r;
         additional_notes := additional_notes r |}
  | Set_subtotal x =>
      {| customer_id := customer_id r; vehicle_id := vehicle_id r;
         start_date := start_date r; end_date := end_date r;
         actual_return_date := actual_return_date r;
         daily_rate := daily_rate r; total_days := total_days r;
         subtotal := x; tax_amount := tax_amount r;
         additional_charges := additional_charges r;
         discount_amount := discount_amount r;
         total_amount := total_amount r; rental_status := rental_status r;
         pickup_mileage := pickup_mileage r;
         return_mileage := return_mileage r;
         additional_notes := additional_notes r |}
  | Set_tax_amount x =>
      {| customer_id := customer_id r; vehicle_id := vehicle_id r;
         start_date := start_date r; end_date := end_date r;
         actual_return_date := actual_return_date r;
         daily_rate := daily_rate r; total_days := total_days r;
         subtotal := subtotal r; tax_amount := x;
         additional_charges := additional_charges r;
         discount_amount := discount_amount r;
         total_amount := total_amount r; rental_status := rental_status r;
         pickup_mileage := pickup_mileage r;
         return_mileage := return_mileage r;
         additional_notes := additional_notes r |}
  | Set_additional_charges x =>
      {| customer_id := customer_id r; vehicle_id := vehicle_id r;
         start_date := start_date r; end_date := end_date r;
         actual_return_date := actual_return_date r;
         daily_rate := daily_rate r; total_days := total_days r;
         subtotal := subtotal r; tax_amount := tax_amount r;
         additional_charges := x; discount_amount := discount_amount r;
         total_amount := total_amount r; rental_status := rental_status r;
         pickup_mileage := pickup_mileage r;
         return_mileage := return_mileage r;
         additional_notes := additional_notes r |}
  | Set_discount_amount x =>
      {| customer_id := customer_id r; vehicle_id := vehicle_id r;
         start_date := start_date r; end_date := end_date r;
         actual_return_date := actual_return_date r;
         daily_rate := daily_rate r; total_days := total_days r;
         subtotal := subtotal r; tax_amount := tax_amount r;
         additional_charges := additional_charges r; discount_amount := x;
         total_amount := total_amount r; rental_status := rental_status r;
         pickup_mileage := pickup_mileage r;
         return_mileage := return_mileage r;
         additional_notes := additional_notes r |}
  | Set_total_amount x =>
      {| customer_id := customer_id r; vehicle_id := vehicle_id r;
         start_date := start_date r; end_date := end_date r;
         actual_return_date := actual_return_date r;
         daily_rate := daily_rate r; total_days := total_days r;
         subtotal := subtotal r; tax_amount := tax_amount r;
         additional_charges := additional_charges r;
         discount_amount := discount_amount r; total_amount := x;
         rental_status := rental_status r;
         pickup_mileage := pickup_mileage r;
         return_mileage := return_mileage r;
         additional_notes := additional_notes r |}
  | Set_rental_status x =>
      {| customer_id := customer_id r; vehicle_id := vehicle_id r;
         start_date := start_date r; end_date := end_date r;
         actual_return_date := actual_return_date r;
         daily_rate := daily_rate r; total_days := total_days r;
         subtotal := subtotal r; tax_amount := tax_amount r;
         additional_charges := additional_charges r;
         discount_amount := discount_amount r;
         total_amount := total_amount r; rental_status := x;
         pickup_mileage := pickup_mileage r;
         return_mileage := return_mileage r;
         additional_notes := additional_notes r |}
  | Set_pickup_mileage x =>
      {| customer_id := customer_id r; vehicle_id := vehicle_id r;
         start_date := start_date r; end_date := end_date r;
         actual_return_date := actual_return_date r;
         daily_rate := daily_rate r; total_days := total_days r;
         subtotal := subtotal r; tax_amount := tax_amount r;
         additional_charges := additional_charges r;
         discount_amount := discount_amount r;
         total_amount := total_amount r; rental_status := rental_status r;
         pickup_mileage := x; return_mileage := return_mileage r;
         additional_notes := additional_notes r |}
  | Set_return_mileage x =>
      {| customer_id := customer_id r; vehicle_id := vehicle_id r;
         start_date := start_date r; end_date := end_date r;
         actual_return_date := actual_return_date r;
         daily_rate := daily_rate r; total_days := total_days r;
         subtotal := subtotal r; tax_amount := tax_amount r;
         additional_charges := additional_charges r;
         discount_amount := discount_amount r;
         total_amount := total_amount r; rental_status := rental_status r;
         pickup_mileage := pickup_mileage r; return_mileage := x;
         additional_notes := additional_notes r |}
  | Set_additional_notes x =>
      {| customer_id := customer_id r; vehicle_id := vehicle_id r;
         start_date := start_date r; end_date := end_date r;
         actual_return_date := actual_return_date r;
         daily_rate := daily_rate r; total_days := total_days r;
         subtotal := subtotal r; tax_amount := tax_amount r;
         additional_charges := additional_charges r;
         discount_amount := discount_amount r;
         total_amount := total_amount r; rental_status := rental_status r;
         pickup_mileage := pickup_mileage r;
         return_mileage := return_mileage r; additional_notes := x |}
  end.

(** The [validate] entries of the model: total_days has [min: 1], the
    amounts and the mileages have [min: 0]. *)
Definition valid (a : assign) : bool :=
  match a with
  | Set_daily_rate x => min_Q 0 x
  | Set_total_days x => min_Z 1 x
  | Set_subtotal x => min_Q 0 x
  | Set_tax_amount x => min_Q 0 x
  | Set_additional_charges x => min_Q 0 x
  | Set_discount_amount x => min_Q 0 x
  | Set_total_amount x => min_Q 0 x
  | Set_pickup_mileage x => min_optZ 0 x
  | Set_return_mileage x => min_optZ 0 x
  | _ => true
  end.
End Rental.

Module Maintenance.
Record t := {
  vehicle_id : string;
  scheduled_date : Z;
  completed_date : option Z;
  mileage_at_maintenance : option Z;
  actual_cost : option Q;
  status : MaintenanceStatus;
  priority : Priority;
  next_maintenance_mileage : option Z
}.

(** One [key: value] entry of the object literal handed to [update]. *)
Inductive assign :=
| Set_vehicle_id (x : string)
| Set_scheduled_date (x : Z)
| Set_completed_date (x : option Z)
| Set_mileage_at_maintenance (x : option Z)
| Set_actual_cost (x : option Q)
| Set_status (x : MaintenanceStatus)
| Set_priority (x : Priority)
| Set_next_maintenance_mileage (x : option Z).

Definition set (a : assign) (r : t) : t :=
  match a with
  | Set_vehicle_id x =>
      {| vehicle_id := x; scheduled_date := scheduled_date r;
         completed_date := completed_date r;
         mileage_at_maintenance := mileage_at_maintenance r;
         actual_cost := actual_cost r; status := status r;
         priority := priority r;
         next_maintenance_mileage := next_maintenance_mileage r |}
  | Set_scheduled_date x =>
      {| vehicle_id := vehicle_id r; scheduled_date := x;
         completed_date := completed_date r;
         mileage_at_maintenance := mileage_at_maintenance r;
         actual_cost := actual_cost r; status := status r;
         priority := priority r;
         next_maintenance_mileage := next_maintenance_mileage r |}
  | Set_completed_date x =>
      {| vehicle_id := vehicle_id r; scheduled_date := scheduled_date r;
         completed_date := x;
         mileage_at_maintenance := mileage_at_maintenance r;
         actual_cost := actual_cost r; status := status r;
         priority := priority r;
         next_maintenance_mileage := next_maintenance_mileage r |}
  | Set_mileage_at_maintenance x =>
      {| vehicle_id := vehicle_id r; scheduled_date := scheduled_date r;
         completed_date := completed_date r; mileage_at_maintenance := x;
         actual_cost := actual_cost r; status := status r;
         priority := priority r;
         next_maintenance_mileage := next_maintenance_mileage r |}
  | Set_actual_cost x =>
      {| vehicle_id := vehicle_id r; scheduled_date := scheduled_date r;
         completed_date := completed_date r;
         mileage_at_maintenance := mileage_at_maintenance r;
         actual_cost := x; status := status r; priority := priority r;
         next_maintenance_mileage := next_maintenance_mileage r |}
  | Set_status x =>
      {| vehicle_id := vehicle_id r; scheduled_date := scheduled_date r;
         completed_date := completed_date r;
         mileage_at_maintenance := mileage_at_maintenance r;
         actual_cost := actual_cost r; status := x; priority := priority r;
         next_maintenance_mileage := next_maintenance_mileage r |}
  | Set_priority x =>
      {| vehicle_id := vehicle_id r; scheduled_date := scheduled_date r;
         completed_date := completed_date r;
         mileage_at_maintenance := mileage_at_maintenance r;
         actual_cost := actual_cost r; status := status r; priority := x;
         next_maintenance_mileage := next_maintenance_mileage r |}
  | Set_next_maintenance_mileage x =>
      {| vehicle_id := vehicle_id r; scheduled_date := scheduled_date r;
         completed_date := completed_date r;
         mileage_at_maintenance := mileage_at_maintenance r;
         actual_cost := actual_cost r; status := status r;
         priority := priority r; next_maintenance_mileage := x |}
  end.

(** The [validate] entries of the model ([min: 0]). *)
Definition valid (a : assign) : bool :=
  match a with
  | Set_mileage_at_maintenance x => min_optZ 0 x
  | Set_actual_cost x => min_optQ 0 x
  | Set_next_maintenance_mileage x => min_optZ 0 x
  | _ => true
  end.
End Maintenance.

(** [Rental.create] / [Maintenance.create] validate every column of the new
    row. *)
Definition Rental_valid_row (r : Rental.t) : bool :=
  forallb Rental.valid
    [Rental.Set_daily_rate (Rental.daily_rate r);
     Rental.Set_total_days (Rental.total_days r);
     Rental.Set_subtotal (Rental.subtotal r);
     Rental.Set_tax_amount (Rental.tax_amount r);
     Rental.Set_additional_charges (Rental.additional_charges r);
     Rental.Set_discount_amount (Rental.discount_amount r);
     Rental.Set_total_amount (Rental.total_amount r);
     Rental.Set_pickup_mileage (Rental.pickup_mileage r);
     Rental.Set_return_mileage (Rental.return_mileage r)].

Definition Maintenance_valid_row (m : Maintenance.t) : bool :=
  forallb Maintenance.valid
    [Maintenance.Set_mileage_at_maintenance (Maintenance.mileage_at_maintenance m);
     Maintenance.Set_actual_cost (Maintenance.actual_cost m);
     Maintenance.Set_next_maintenance_mileage
       (Maintenance.next_maintenance_mileage m)].

(** ** The database and the handler monad *)

Record DB := {
  customers : gmap string Customer.t;
  vehicles : gmap string Vehicle.t;
  rentals : gmap string Rental.t;
  maintenances : gmap string Maintenance.t
}.

Definition with_customers (t : gmap string Customer.t) (db : DB) : DB :=
  {| customers := t; vehicles := vehicles db; rentals := rentals db;
     maintenances := maintenances db |}.
Definition with_vehicles (t : gmap string Vehicle.t) (db : DB) : DB :=
  {| customers := customers db; vehicles := t; rentals := rentals db;
     maintenances := maintenances db |}.
Definition with_rentals (t : gmap string Rental.t) (db : DB) : DB :=
  {| customers := customers db; vehicles := vehicles db; rentals := t;
     maintenances := maintenances db |}.
Definition with_maintenances (t : gmap string Maintenance.t) (db : DB) : DB :=
  {| customers := customers db; vehicles := vehicles db; rentals := rentals db;
     maintenances := t |}.

(** The [data] member of the response envelope. *)
Inductive payload :=
| no_data
| rental_data (id : string) (rental : option Rental.t)
| completion_data (lateFees totalAdditionalCharges newTotalAmount : Q)
| vehicle_data (vehicle : Vehicle.t)
| maintenance_data (id : string) (maintenance : option Maintenance.t).

Record response := {
  code : Z;
  success : bool;
  message : string;
  data : payload
}.

(** [res.status(c).json({ success: false, message: m })] *)
Definition failure (c : Z) (m : string) : response :=
  {| code := c; success := false; message := m; data := no_data |}.

(** [res.status(c).json({ success: true, message: m, data: d })] *)
Definition ok (c : Z) (m : string) (d : payload) : response :=
  {| code := c; success := true; message := m; data := d |}.

Inductive outcome (A : Type) :=
| Val (a : A)
| Sent (r : response)
| Thrown.
Arguments Val {A} a.
Arguments Sent {A} r.
Arguments Thrown {A}.

Definition handler (A : Type) : Type := DB -> DB * outcome A.

Definition ret {A} (a : A) : handler A := fun db => (db, Val a).

Definition bind {A B} (m : handler A) (k : A -> handler B) : handler B :=
  fun db =>
    match m db with
    | (db', Val a) => k a db'
    | (db', Sent r) => (db', Sent r)
    | (db', Thrown) => (db', Thrown)
    end.

Declare Scope handler_scope.
Delimit Scope handler_scope with handler.
Notation "x <- m ;; k" := (bind m (fun x => k))
  (at level 100, m at next level, right associativity) : handler_scope.
Notation "m ;; k" := (bind m (fun _ => k))
  (at level 100, right associativity) : handler_scope.
Local Open Scope handler_scope.

(** [return res.status(..).json(..)] *)
Definition send {A} (r : response) : handler A := fun db => (db, Sent r).

Definition throw {A} : handler A := fun db => (db, Thrown).

(** [if (c) { return res...json(r) }] *)
Definition reject_if (c : bool) (r : response) : handler unit :=
  if c then send r else ret tt.

(** [if (!x || !ok(x)) { return res...json(r) }], binding the row found. *)
Definition require {A} (x : option A) (is_ok : A -> bool) (r : response)
  : handler A :=
  match x with
  | Some a => if is_ok a then ret a else send r
  | None => send r
  end.

(** The [try { ... } catch (error) { res.status(500)... }] that wraps the
    body of every controller; the value of the body is the answer of its
    last [res.json]. *)
Definition controller (body : handler response) (db : DB) : DB * response :=
  match body db with
  | (db', Val r) => (db', r)
  | (db', Sent r) => (db', r)
  | (db', Thrown) => (db', failure 500 "Error interno del servidor")
  end.

(** ** Sequelize model operations *)

Section Rows.
Context {R A : Type} (set : A -> R -> R) (valid : A -> bool).

(** The row after [instance.set(values)]. *)
Definition assign_all (values : list A) (r : R) : R :=
  fold_left (fun r a => set a r) values r.

(** [instance.update(values)] on one table: the values are validated, then
    the row with that primary key is rewritten. *)
Definition update_in (t : gmap string R) (id : string) (values : list A)
  : option (gmap string R) :=
  if forallb valid values then Some (alter (assign_all values) id t)
  else None.

(** [Model.create(row)] with the drawn primary key. *)
Definition create_in (valid_row : R -> bool) (t : gmap string R)
    (id : string) (r : R) : option (gmap string R) :=
  if valid_row r then
    match t !! id with
    | None => Some (<[id := r]> t)
    | Some _ => None
    end
  else None.
End Rows.

(** [Model.count({ where })] *)
Definition count_where {R} (where_ : R -> bool) (t : gmap string R) : nat :=
  size (filter (fun kv => where_ kv.2 = true) t).

Module Customers.
Definition findByPk (id : string) : handler (option Customer.t) :=
  fun db => (db, Val (customers db !! id)).

Definition update (id : string) (values : list Customer.assign)
  : handler unit :=
  fun db =>
    match update_in Customer.set Customer.valid (customers db) id values with
    | Some t => (with_customers t db, Val tt)
    | None => (db, Thrown)
    end.
End Customers.

Module Vehicles.
Definition findByPk (id : string) : handler (option Vehicle.t) :=
  fun db => (db, Val (vehicles db !! id)).

Definition update (id : string) (values : list Vehicle.assign)
  : handler unit :=
  fun db =>
    match update_in Vehicle.set Vehicle.valid (vehicles db) id values with
    | Some t => (with_vehicles t db, Val tt)
    | None => (db, Thrown)
    end.
End Vehicles.

Module Rentals.
Definition findByPk (id : string) : handler (option Rental.t) :=
  fun db => (db, Val (rentals db !! id)).

(** [Rental.findByPk(id, { include: [{ model: Vehicle, as: 'vehicle' }] })]:
    the row together with [rental.vehicle]. *)
Definition findByPk_include_vehicle (id : string)
  : handler (option (Rental.t * option Vehicle.t)) :=
  fun db =>
    (db, Val (match rentals db !! id with
              | Some r => Some (r, vehicles db !! Rental.vehicle_id r)
              | None => None
              end)).

Definition count (where_ : Rental.t -> bool) : handler nat :=
  fun db => (db, Val (count_where where_ (rentals db))).

Definition create (id : string) (r : Rental.t) : handler unit :=
  fun db =>
    match create_in Rental_valid_row (rentals db) id r with
    | Some t => (with_rentals t db, Val tt)
    | None => (db, Thrown)
    end.

Definition update (id : string) (values : list Rental.assign)
  : handler unit :=
  fun db =>
    match update_in Rental.set Rental.valid (rentals db) id values with
    | Some t => (with_rentals t db, Val tt)
    | None => (db, Thrown)
    end.
End Rentals.

Module Maintenances.
Definition findByPk (id : string) : handler (option Maintenance.t) :=
  fun db => (db, Val (maintenances db !! id)).

(** [Maintenance.findByPk(id, { include: [{ model: Vehicle, as: 'vehicle' }] })] *)
Definition findByPk_include_vehicle (id : string)
  : handler (option (Maintenance.t * option Vehicle.t)) :=
  fun db =>
    (db, Val (match maintenances db !! id with
              | Some m => Some (m, vehicles db !! Maintenance.vehicle_id m)
              | None => None
              end)).

Definition create (id : string) (m : Maintenance.t) : handler unit :=
  fun db =>
    match create_in Maintenance_valid_row (maintenances db) id m with
    | Some t => (with_maintenances t db, Val tt)
    | None => (db, Thrown)
    end.

(** The [beforeUpdate] hook of the model: the status follows the dates. *)
Definition beforeUpdate (today : Z) (maintenance : Maintenance.t)
  : Maintenance.t :=
  let scheduledDate := Maintenance.scheduled_date maintenance in
  match Maintenance.completed_date maintenance with
  | Some _ => Maintenance.set (Maintenance.Set_status m_completed) maintenance
  | None =>
      if (scheduledDate <? today)
         && bool_decide (Maintenance.status maintenance = m_scheduled)
      then Maintenance.set (Maintenance.Set_status m_overdue) maintenance
      else maintenance
  end.

(** [maintenance.update(values)]: the values are set and validated, the
    hook runs on the instance, and the row is written. *)
Definition update (today : Z) (id : string)
    (values : list Maintenance.assign) : handler unit :=
  fun db =>
    if forallb Maintenance.valid values then
      (with_maintenances
         (alter (fun m => beforeUpdate today
                            (assign_all Maintenance.set values m))
                id (maintenances db)) db,
       Val tt)
    else (db, Thrown).
End Maintenances.

(** ** rentalController.js *)

(** The request body of [POST /api/rentals]: the members required by
    [rentalValidation], the optional amounts, and [rental_status], which the
    Rental schema of the request allows and [...req.body] carries over. *)
Module RentalBody.
Record t := {
  customer_id : string;
  vehicle_id : string;
  start_date : Z;
  end_date : Z;
  additional_charges : option Q;
  discount_amount : option Q;
  rental_status : option RentalStatus
}.
End RentalBody.


(** The [Op.or] of the conflict query: the stored rental starts within the
    requested dates, ends within them, or spans them. *)
Definition dates_overlap (start_date end_date : Z) (r : Rental.t) : bool :=
  ((start_date <=? Rental.start_date r) && (Rental.start_date r <=? end_date))
  || ((start_date <=? Rental.end_date r) && (Rental.end_date r <=? end_date))
  || ((Rental.start_date r <=? start_date) && (end_date <=? Rental.end_date r)).

(** The [where] clause of the conflict query of [createRental]. *)
Definition conflicting (vehicle_id : string) (start_date end_date : Z)
    (r : Rental.t) : bool :=
  bool_decide (Rental.vehicle_id r = vehicle_id)
  && in_active_states (Rental.rental_status r)
  && dates_overlap start_date end_date r.

(** The row that [createRental] hands to [Rental.create]: the body, the
    computed amounts, and the column defaults of the model. *)
Definition new_rental (rentalData : RentalBody.t) (vehicle : Vehicle.t)
  : Rental.t :=
  let startDate := RentalBody.start_date rentalData in
  let endDate := RentalBody.end_date rentalData in
  let totalDays := ceil_div (endDate - startDate) ms_per_day in
  let subtotal := (inject_Z totalDays * Vehicle.daily_rate vehicle)%Q in
  let tax_amount := (subtotal * (19 # 100))%Q in
  let total_amount :=
    (subtotal + tax_amount
     + or_Q (RentalBody.additional_charges rentalData) 0
     - or_Q (RentalBody.discount_amount rentalData) 0)%Q in
  {| Rental.customer_id := RentalBody.customer_id rentalData;
     Rental.vehicle_id := RentalBody.vehicle_id rentalData;
     Rental.start_date := startDate;
     Rental.end_date := endDate;
     Rental.actual_return_date := None;
     Rental.daily_rate := Vehicle.daily_rate vehicle;
     Rental.total_days := totalDays;
     Rental.subtotal := subtotal;
     Rental.tax_amount := tax_amount;
     Rental.additional_charges :=
       default 0%Q (RentalBody.additional_charges rentalData);
     Rental.discount_amount :=
       default 0%Q (RentalBody.discount_amount rentalData);
     Rental.total_amount := total_amount;
     Rental.rental_status :=
       default reserved (RentalBody.rental_status rentalData);
     Rental.pickup_mileage := None;
     Rental.return_mileage := None;
     Rental.additional_notes := None |}.

Definition vehicle_available (v : Vehicle.t) : bool :=
  Vehicle.is_active v && bool_decide (Vehicle.status v = available).

Definition createRental (new_id : string) (rentalData : RentalBody.t)
  : DB -> DB * response :=
  controller (
    customer <- Customers.findByPk (RentalBody.customer_id rentalData) ;;
    _ <- require customer Customer.is_active
           (failure 400 "Cliente no encontrado o inactivo") ;;
    vehicle <- Vehicles.findByPk (RentalBody.vehicle_id rentalData) ;;
    vehicle <- require vehicle vehicle_available
                 (failure 400 "Vehículo no disponible") ;;
    conflictingRentals <-
      Rentals.count (conflicting (RentalBody.vehicle_id rentalData)
                       (RentalBody.start_date rentalData)
                       (RentalBody.end_date rentalData)) ;;
    reject_if (0 <? conflictingRentals)%nat
      (failure 400 "El vehículo ya tiene reservas en las fechas seleccionadas") ;;
    Rentals.create new_id (new_rental rentalData vehicle) ;;
    Vehicles.update (RentalBody.vehicle_id rentalData)
      [Vehicle.Set_status rented] ;;
    completeRental <- Rentals.findByPk new_id ;;
    ret (ok 201 "Alquiler creado exitosamente"
           (rental_data new_id completeRental))).

(** [PUT /api/rentals/:id]: the body is a set of column values. *)
Definition updateRental (id : string) (updateData : list Rental.assign)
  : DB -> DB * response :=
  controller (
    rental <- Rentals.findByPk id ;;
    rental <- require rental (fun _ => true)
                (failure 404 "Alquiler no encontrado") ;;
    reject_if (is_terminal (Rental.rental_status rental))
      (failure 400 "No se puede modificar un alquiler completado o cancelado") ;;
    Rentals.update id updateData ;;
    updatedRental <- Rentals.findByPk id ;;
    ret (ok 200 "Alquiler actualizado exitosamente"
           (rental_data id updatedRental))).

Definition cancelRental (id : string) (cancellation_reason : option string)
  : DB -> DB * response :=
  controller (
    rental <- Rentals.findByPk_include_vehicle id ;;
    found <- require rental (fun _ => true)
               (failure 404 "Alquiler no encontrado") ;;
    let '(rental, vehicle) := found in
    reject_if (is_terminal (Rental.rental_status rental))
      (failure 400 "El alquiler ya está completado o cancelado") ;;
    Rentals.update id
      [Rental.Set_rental_status cancelled;
       Rental.Set_additional_notes
         (or_string cancellation_reason (Rental.additional_notes rental))] ;;
    match vehicle with
    | Some _ =>
        Vehicles.update (Rental.vehicle_id rental)
          [Vehicle.Set_status available]
    | None => ret tt
    end ;;
    ret (ok 200 "Alquiler cancelado exitosamente" no_data)).

(** A member of an object literal whose value may be [undefined]:
    [update] drops it in that case. *)
Definition defined {A B} (f : option A -> B) (x : option A) : list B :=
  match x with
  | Some _ => [f x]
  | None => []
  end.

Definition startRental (id : string) (pickup_mileage : option Z)
  : DB -> DB * response :=
  controller (
    rental <- Rentals.findByPk_include_vehicle id ;;
    found <- require rental (fun _ => true)
               (failure 404 "Alquiler no encontrado") ;;
    let '(rental, vehicle) := found in
    reject_if (negb (bool_decide (Rental.rental_status rental = confirmed)))
      (failure 400 "El alquiler debe estar confirmado para iniciar") ;;
    Rentals.update id
      (Rental.Set_rental_status active
       :: defined Rental.Set_pickup_mileage pickup_mileage) ;;
    match vehicle, pickup_mileage with
    | Some _, Some m =>
        if m =? 0 then ret tt
        else Vehicles.update (Rental.vehicle_id rental)
               [Vehicle.Set_current_mileage m]
    | _, _ => ret tt
    end ;;
    ret (ok 200 "Alquiler iniciado exitosamente" no_data)).

(** The request body of [PATCH /api/rentals/:id/complete]. *)
Module CompleteBody.
Record t := {
  return_mileage : option Z;
  additional_charges : option Q;
  actual_return_date : option Z
}.
End CompleteBody.

(** The late fee of [completeRental]: 150% of the daily rate for every
    started day after the scheduled end. *)
Definition late_fees (returnDate : Z) (rental : Rental.t) : Q :=
  let scheduledEndDate := Rental.end_date rental in
  if scheduledEndDate <? returnDate then
    let lateDays := ceil_div (returnDate - scheduledEndDate) ms_per_day in
    (inject_Z lateDays * Rental.daily_rate rental * (3 # 2))%Q
  else 0%Q.

Definition completeRental (now : Z) (id : string) (body : CompleteBody.t)
  : DB -> DB * response :=
  controller (
    rental <- Rentals.findByPk_include_vehicle id ;;
    found <- require rental (fun _ => true)
               (failure 404 "Alquiler no encontrado") ;;
    let '(rental, vehicle) := found in
    reject_if (negb (bool_decide (Rental.rental_status rental = active)))
      (failure 400 "El alquiler debe estar activo para completar") ;;
    let returnDate := default now (CompleteBody.actual_return_date body) in
    let lateFees := late_fees returnDate rental in
    let totalAdditionalCharges :=
      (or_Q (CompleteBody.additional_charges body) 0 + lateFees)%Q in
    let newTotalAmount :=
      (Rental.subtotal rental + Rental.tax_amount rental
       + totalAdditionalCharges - Rental.discount_amount rental)%Q in
    Rentals.update id
      ([Rental.Set_rental_status completed;
        Rental.Set_actual_return_date (Some returnDate)]
       ++ defined Rental.Set_return_mileage (CompleteBody.return_mileage body)
       ++ [Rental.Set_additional_charges totalAdditionalCharges;
           Rental.Set_total_amount newTotalAmount]) ;;
    match vehicle with
    | Some vehicle =>
        Vehicles.update (Rental.vehicle_id rental)
          [Vehicle.Set_status available;
           Vehicle.Set_current_mileage
             (or_Z (CompleteBody.return_mileage body)
                (Vehicle.current_mileage vehicle))]
    | None => ret tt
    end ;;
    ret (ok 200 "Alquiler completado exitosamente"
           (completion_data lateFees totalAdditionalCharges newTotalAmount))).

(** The operations of the rental API, as one request type. *)
Inductive rental_request :=
| CreateRental (new_id : string) (rentalData : RentalBody.t)
| UpdateRental (id : string) (updateData : list Rental.assign)
| StartRental (id : string) (pickup_mileage : option Z)
| CompleteRental (now : Z) (id : string) (body : CompleteBody.t)
| CancelRental (id : string) (cancellation_reason : option string).

Definition serve (q : rental_request) : DB -> DB * response :=
  match q with
  | CreateRental new_id rentalData => createRental new_id rentalData
  | UpdateRental id updateData => updateRental id updateData
  | StartRental id pickup_mileage => startRental id pickup_mileage
  | CompleteRental now id body => completeRental now id body
  | CancelRental id reason => cancelRental id reason
  end.

(** ** vehicleController.js *)

(** [{ vehicle_id: id, rental_status: { [Op.in]: [...] } }] *)
Definition active_rental_of_vehicle (id : string) (r : Rental.t) : bool :=
  bool_decide (Rental.vehicle_id r = id)
  && in_active_states (Rental.rental_status r).

Definition deleteVehicle (id : string) : DB -> DB * response :=
  controller (
    vehicle <- Vehicles.findByPk id ;;
    _ <- require vehicle (fun _ => true)
           (failure 404 "Vehículo no encontrado") ;;
    activeRentals <- Rentals.count (active_rental_of_vehicle id) ;;
    reject_if (0 <? activeRentals)%nat
      (failure 400 "No se puede eliminar un vehículo con alquileres activos") ;;
    Vehicles.update id [Vehicle.Set_is_active false; Vehicle.Set_status inactive] ;;
    ret (ok 200 "Vehículo eliminado exitosamente" no_data)).

(** [PATCH /api/vehicles/:id/mileage]; the route requires an integer
    [current_mileage] in the body. *)
Definition updateMileage (id : string) (current_mileage : Z)
  : DB -> DB * response :=
  controller (
    vehicle <- Vehicles.findByPk id ;;
    vehicle <- require vehicle (fun _ => true)
                 (failure 404 "Vehículo no encontrado") ;;
    reject_if (current_mileage <? Vehicle.current_mileage vehicle)
      (failure 400 "El kilometraje no puede ser menor al actual") ;;
    Vehicles.update id [Vehicle.Set_current_mileage current_mileage] ;;
    ret (ok 200 "Kilometraje actualizado exitosamente"
           (vehicle_data
              (Vehicle.set (Vehicle.Set_current_mileage current_mileage)
                 vehicle)))).

(** ** customerController.js *)

(** [{ customer_id: id, rental_status: { [Op.in]: [...] } }] *)
Definition active_rental_of_customer (id : string) (r : Rental.t) : bool :=
  bool_decide (Rental.customer_id r = id)
  && in_active_states (Rental.rental_status r).

Definition deleteCustomer (id : string) : DB -> DB * response :=
  controller (
    customer <- Customers.findByPk id ;;
    _ <- require customer (fun _ => true)
           (failure 404 "Cliente no encontrado") ;;
    activeRentals <- Rentals.count (active_rental_of_customer id) ;;
    reject_if (0 <? activeRentals)%nat
      (failure 400 "No se puede eliminar un cliente con alquileres activos") ;;
    Customers.update id [Customer.Set_is_active false] ;;
    ret (ok 200 "Cliente eliminado exitosamente" no_data)).

(** ** maintenanceController.js *)

(** The members of the body of [POST /api/maintenances] that reach the
    columns carried here. *)
Module MaintenanceBody.
Record t := {
  vehicle_id : string;
  scheduled_date : Z;
  completed_date : option Z;
  mileage_at_maintenance : option Z;
  actual_cost : option Q;
  status : option MaintenanceStatus;
  priority : option Priority;
  next_maintenance_mileage : option Z
}.
End MaintenanceBody.

(** The row built by [Maintenance.create(maintenanceData)], with the
    defaults of the model for status and priority. *)
Definition new_maintenance (maintenanceData : MaintenanceBody.t)
  : Maintenance.t :=
  {| Maintenance.vehicle_id := MaintenanceBody.vehicle_id maintenanceData;
     Maintenance.scheduled_date :=
       MaintenanceBody.scheduled_date maintenanceData;
     Maintenance.completed_date :=
       MaintenanceBody.completed_date maintenanceData;
     Maintenance.mileage_at_maintenance :=
       MaintenanceBody.mileage_at_maintenance maintenanceData;
     Maintenance.actual_cost := MaintenanceBody.actual_cost maintenanceData;
     Maintenance.status :=
       default m_scheduled (MaintenanceBody.status maintenanceData);
     Maintenance.priority :=
       default medium (MaintenanceBody.priority maintenanceData);
     Maintenance.next_maintenance_mileage :=
       MaintenanceBody.next_maintenance_mileage maintenanceData |}.

(** [priority === 'critical' && status === 'scheduled'] *)
Definition critical_and_scheduled (m : Maintenance.t) : bool :=
  bool_decide (Maintenance.priority m = critical)
  && bool_decide (Maintenance.status m = m_scheduled).

Definition createMaintenance (new_id : string)
    (maintenanceData : MaintenanceBody.t) : DB -> DB * response :=
  controller (
    vehicle <- Vehicles.findByPk (MaintenanceBody.vehicle_id maintenanceData) ;;
    _ <- require vehicle Vehicle.is_active
           (failure 400 "Vehículo no encontrado o inactivo") ;;
    let maintenance := new_maintenance maintenanceData in
    Maintenances.create new_id maintenance ;;
    (if critical_and_scheduled maintenance then
       Vehicles.update (MaintenanceBody.vehicle_id maintenanceData)
         [Vehicle.Set_status in_maintenance]
     else ret tt) ;;
    completeMaintenance <- Maintenances.findByPk new_id ;;
    ret (ok 201 "Mantenimiento creado exitosamente"
           (maintenance_data new_id completeMaintenance))).

(** [updateData.status] and [updateData.mileage_at_maintenance] of a body
    given as a list of members; the last occurrence of a key is its value. *)
Definition body_status (updateData : list Maintenance.assign)
  : option MaintenanceStatus :=
  fold_left (fun acc a =>
               match a with Maintenance.Set_status s => Some s | _ => acc end)
    updateData None.

Definition body_mileage (updateData : list Maintenance.assign) : option Z :=
  fold_left (fun acc a =>
               match a with
               | Maintenance.Set_mileage_at_maintenance m => m
               | _ => acc
               end)
    updateData None.

Definition updateMaintenance (now : Z) (id : string)
    (updateData : list Maintenance.assign) : DB -> DB * response :=
  controller (
    maintenance <- Maintenances.findByPk_include_vehicle id ;;
    found <- require maintenance (fun _ => true)
               (failure 404 "Mantenimiento no encontrado") ;;
    let '(maintenance, vehicle) := found in
    let completing :=
      bool_decide (body_status updateData = Some m_completed)
      && negb (bool_decide (Maintenance.status maintenance = m_completed)) in
    (if completing then
       match vehicle with
       | Some vehicle =>
           (if bool_decide (Vehicle.status vehicle = in_maintenance) then
              Vehicles.update (Maintenance.vehicle_id maintenance)
                [Vehicle.Set_status available]
            else ret tt) ;;
           (if or_Z (body_mileage updateData) 0 =? 0 then ret tt
            else
              Vehicles.update (Maintenance.vehicle_id maintenance)
                [Vehicle.Set_current_mileage (or_Z (body_mileage updateData) 0);
                 Vehicle.Set_last_maintenance_mileage
                   (body_mileage updateData)])
       | None => ret tt
       end
     else ret tt) ;;
    Maintenances.update now id
      (if completing
       then updateData ++ [Maintenance.Set_completed_date (Some now)]
       else updateData) ;;
    updatedMaintenance <- Maintenances.findByPk id ;;
    ret (ok 200 "Mantenimiento actualizado exitosamente"
           (maintenance_data id updatedMaintenance))).

Definition startMaintenance (now : Z) (id : string)
    (mileage_at_maintenance : option Z) : DB -> DB * response :=
  controller (
    maintenance <- Maintenances.findByPk_include_vehicle id ;;
    found <- require maintenance (fun _ => true)
               (failure 404 "Mantenimiento no encontrado") ;;
    let '(maintenance, vehicle) := found in
    reject_if (negb (bool_decide (Maintenance.status maintenance = m_scheduled)))
      (failure 400 "El mantenimiento debe estar programado para iniciar") ;;
    Maintenances.update now id
      (Maintenance.Set_status m_in_progress
       :: defined Maintenance.Set_mileage_at_maintenance
            mileage_at_maintenance) ;;
    match vehicle with
    | Some _ =>
        Vehicles.update (Maintenance.vehicle_id maintenance)
          [Vehicle.Set_status in_maintenance]
    | None => ret tt
    end ;;
    ret (ok 200 "Mantenimiento iniciado exitosamente" no_data)).

Definition completeMaintenance (now : Z) (id : string)
    (actual_cost : option Q) (next_maintenance_mileage : option Z)
  : DB -> DB * response :=
  controller (
    maintenance <- Maintenances.findByPk_include_vehicle id ;;
    found <- require maintenance (fun _ => true)
               (failure 404 "Mantenimiento no encontrado") ;;
    let '(maintenance, vehicle) := found in
    reject_if
      (negb (bool_decide (Maintenance.status maintenance = m_in_progress)))
      (failure 400 "El mantenimiento debe estar en progreso para completar") ;;
    Maintenances.update now id
      ([Maintenance.Set_status m_completed;
        Maintenance.Set_completed_date (Some now)]
       ++ defined Maintenance.Set_actual_cost actual_cost
       ++ defined Maintenance.Set_next_maintenance_mileage
            next_maintenance_mileage) ;;
    match vehicle with
    | Some _ =>
        Vehicles.update (Maintenance.vehicle_id maintenance)
          ([Vehicle.Set_status available;
            Vehicle.Set_last_maintenance_mileage
              (Maintenance.mileage_at_maintenance maintenance)]
           ++ (if or_Z next_maintenance_mileage 0 =? 0 then []
               else [Vehicle.Set_next_maintenance_mileage
                       next_maintenance_mileage]))
    | None => ret tt
    end ;;
    ret (ok 200 "Mantenimiento completado exitosamente" no_data)).

(** The operations that rewrite a maintenance row. *)
Inductive maintenance_update :=
| UpdateMaintenance (updateData : list Maintenance.assign)
| StartMaintenance (mileage_at_maintenance : option Z)
| CompleteMaintenance (actual_cost : option Q)
    (next_maintenance_mileage : option Z).

Definition serve_update (now : Z) (id : string) (q : maintenance_update)
  : DB -> DB * response :=
  match q with
  | UpdateMaintenance updateData => updateMaintenance now id updateData
  | StartMaintenance mileage => startMaintenance now id mileage
  | CompleteMaintenance cost next => completeMaintenance now id cost next
  end.

(** ** Vocabulary of the properties *)

(** A stored rental overlaps the requested dates, bounds included: it starts
    inside them, ends inside them, or spans them. *)
Definition starts_inside (start_date end_date : Z) (r : Rental.t) : Prop :=
  start_date <= Rental.start_date r <= end_date.
Definition ends_inside (start_date end_date : Z) (r : Rental.t) : Prop :=
  start_date <= Rental.end_date r <= end_date.
Definition spans (start_date end_date : Z) (r : Rental.t) : Prop :=
  Rental.start_date r <= start_date /\ end_date <= Rental.end_date r.

Definition holds_vehicle (r : Rental.t) : Prop :=
  Rental.rental_status r = reserved \/ Rental.rental_status r = confirmed
  \/ Rental.rental_status r = active.

(** The vehicle of the request has a reserved, confirmed or active rental
    that overlaps the requested dates. *)
Definition overlapping_rental (db : DB) (body : RentalBody.t) : Prop :=
  exists id r,
    rentals db !! id = Some r
    /\ Rental.vehicle_id r = RentalBody.vehicle_id body
    /\ holds_vehicle r
    /\ (starts_inside (RentalBody.start_date body) (RentalBody.end_date body) r
        \/ ends_inside (RentalBody.start_date body) (RentalBody.end_date body) r
        \/ spans (RentalBody.start_date body) (RentalBody.end_date body) r).

(** The customer of the request exists and is active. *)
Definition customer_ok (db : DB) (body : RentalBody.t) : Prop :=
  exists c, customers db !! RentalBody.customer_id body = Some c
            /\ Customer.is_active c = true.

(** The vehicle of the request exists, is active and is available. *)
Definition vehicle_ok (db : DB) (body : RentalBody.t) (v : Vehicle.t) : Prop :=
  vehicles db !! RentalBody.vehicle_id body = Some v
  /\ Vehicle.is_active v = true /\ Vehicle.status v = available.

Definition overlap_message : string :=
  "El vehículo ya tiene reservas en las fechas seleccionadas".




(** ** The scenario of the specification

    Vehicle V with a daily rate of 50, rented from 2024-01-01 to 2024-01-05
    and returned on 2024-01-07. *)
Module Scenario.
(** Midnight UTC of the n-th day after the epoch; 2024-01-01 is day 19723. *)
Definition day (n : Z) : Z := n * ms_per_day.

Definition V : Vehicle.t :=
  {| Vehicle.daily_rate := 50;
     Vehicle.current_mileage := 1000;
     Vehicle.last_maintenance_mileage := Some 0;
     Vehicle.next_maintenance_mileage := None;
     Vehicle.status := available;
     Vehicle.is_active := true |}.

Definition db0 : DB :=
  {| customers := {[ "c1" := {| Customer.is_active := true |} ]};
     vehicles := {[ "v1" := V ]};
     rentals := ∅;
     maintenances := ∅ |}.

Definition request (start_date end_date : Z)
    (rental_status : option RentalStatus) : RentalBody.t :=
  {| RentalBody.customer_id := "c1";
     RentalBody.vehicle_id := "v1";
     RentalBody.start_date := start_date;
     RentalBody.end_date := end_date;
     RentalBody.additional_charges := None;
     RentalBody.discount_amount := None;
     RentalBody.rental_status := rental_status |}.

(** 2024-01-01 to 2024-01-05. *)
Definition first_request : RentalBody.t :=
  request (day 19723) (day 19727) None.

(** 2024-01-03 to 2024-01-04. *)
Definition second_request : RentalBody.t :=
  request (day 19725) (day 19726) None.

(** The rental is reserved, and the vehicle is rented. *)
Definition db_reserved : DB := fst (createRental "r1" first_request db0).

(** The rental is reserved while its vehicle is available again. *)
Definition db_reserved_available : DB :=
  with_vehicles {[ "v1" := V ]} db_reserved.

(** The rental was confirmed and picked up. *)
Definition db_active : DB :=
  fst (startRental "r1" (Some 1000)
         (fst (updateRental "r1" [Rental.Set_rental_status confirmed]
                 db_reserved))).

(** The rows of that state. *)
Definition active_rental : Rental.t :=
  Rental.set (Rental.Set_pickup_mileage (Some 1000))
    (Rental.set (Rental.Set_rental_status active)
       (new_rental first_request V)).

Definition rented_vehicle : Vehicle.t :=
  Vehicle.set (Vehicle.Set_status rented) V.

(** Returned on 2024-01-07 with the given reading of the odometer. *)
Definition return_body (return_mileage : Z) : CompleteBody.t :=
  {| CompleteBody.return_mileage := Some return_mileage;
     CompleteBody.additional_charges := None;
     CompleteBody.actual_return_date := Some (day 19729) |}.

Definition db_completed : DB :=
  fst (completeRental (day 19729) "r1" (return_body 1200) db_active).

(** The same dates with 100 of additional charges and a discount of 300,
    confirmed and picked up. *)
Definition discounted_request : RentalBody.t :=
  {| RentalBody.customer_id := "c1";
     RentalBody.vehicle_id := "v1";
     RentalBody.start_date := day 19723;
     RentalBody.end_date := day 19727;
     RentalBody.additional_charges := Some 100%Q;
     RentalBody.discount_amount := Some 300%Q;
     RentalBody.rental_status := None |}.

Definition db_discounted_active : DB :=
  fst (startRental "r1" (Some 1000)
         (fst (updateRental "r1" [Rental.Set_rental_status confirmed]
                 (fst (createRental "r1" discounted_request db0))))).

(** A maintenance of V scheduled for 2024-01-01. *)
Definition maintenance_request (priority : option Priority)
    (status : option MaintenanceStatus) : MaintenanceBody.t :=
  {| MaintenanceBody.vehicle_id := "v1";
     MaintenanceBody.scheduled_date := day 19723;
     MaintenanceBody.completed_date := None;
     MaintenanceBody.mileage_at_maintenance := None;
     MaintenanceBody.actual_cost := None;
     MaintenanceBody.status := status;
     MaintenanceBody.priority := priority;
     MaintenanceBody.next_maintenance_mileage := None |}.

Definition db_maintenance : DB :=
  fst (createMaintenance "m1" (maintenance_request None None) db0).
End Scenario.

(** ** The rental lifecycle *)

(** [forward s s']: [s'] comes after [s] in
    reserved, confirmed, active, completed. *)
Definition forward (s s' : RentalStatus) : Prop :=
  match s, s' with
  | reserved, (confirmed | active | completed) => True
  | confirmed, (active | completed) => True
  | active, completed => True
  | _, _ => False
  end.

(** The moves of the lifecycle: none, a move forward, or a cancellation of
    a rental that is not yet completed or cancelled. *)
Definition lifecycle_move (s s' : RentalStatus) : Prop :=
  s' = s \/ forward s s' \/ (is_terminal s = false /\ s' = cancelled).

Definition is_update (q : rental_request) : bool :=
  match q with
  | UpdateRental _ _ => true
  | _ => false
  end.

(** What one request does to the table of rentals: nothing, one new row
    under an unused key, or one row rewritten. *)
Inductive rentals_step (q : rental_request) (t t' : gmap string Rental.t)
  : Prop :=
| step_none : t' = t -> rentals_step q t t'
| step_insert (id : string) (r : Rental.t) :
    t !! id = None -> t' = <[id := r]> t -> rentals_step q t t'
| step_rewrite (id : string) (r r' : Rental.t) :
    t !! id = Some r -> t' = <[id := r']> t ->
    is_terminal (Rental.rental_status r) = false ->
    (is_update q = false ->
     lifecycle_move (Rental.rental_status r) (Rental.rental_status r')) ->
    rentals_step q t t'.

Ltac run_handler :=
  repeat match goal with
    | |- context [match ?x with _ => _ end] =>
        lazymatch x with
        | context [match _ with _ => _ end] => fail
        | _ => destruct x eqn:?; simpl
        end
    end.

Ltac unfold_handlers :=
  unfold controller, bind, Customers.findByPk, Vehicles.findByPk,
    Rentals.findByPk, Rentals.findByPk_include_vehicle, Rentals.count,
    require, reject_if, Rentals.create, Rentals.update, Vehicles.update,
    create_in, update_in, ret, send; simpl.

Ltac unfold_maintenance :=
  unfold controller, bind, Maintenances.findByPk_include_vehicle,
    Maintenances.findByPk, Maintenances.update, Vehicles.update, update_in,
    require, reject_if, ret, send.

(** ** Maintenance records *)

(** The status of a maintenance record agrees with its dates at the instant
    [now]: it is completed when a completion date is set, and it is not
    scheduled when the scheduled date has passed. *)
Definition settled (now : Z) (m : Maintenance.t) : Prop :=
  (is_Some (Maintenance.completed_date m) ->
   Maintenance.status m = m_completed)
  /\ (Maintenance.completed_date m = None ->
      Maintenance.scheduled_date m < now ->
      Maintenance.status m <> m_scheduled).


(** ** Double booking *)




(** ** vehicleController.js: updateVehicle *)

(** [PUT /api/vehicles/:id]: the body is a set of column values. *)
Definition updateVehicle (id : string) (updateData : list Vehicle.assign)
  : DB -> DB * response :=
  controller (
    vehicle <- Vehicles.findByPk id ;;
    vehicle <- require vehicle (fun _ => true)
                 (failure 404 "Vehículo no encontrado") ;;
    Vehicles.update id updateData ;;
    ret (ok 200 "Vehículo actualizado exitosamente"
           (vehicle_data (assign_all Vehicle.set updateData vehicle)))).

(** ** maintenanceController.js: deleteMaintenance *)

(** [maintenance.destroy()] *)
Definition Maintenances_destroy (id : string) : handler unit :=
  fun db => (with_maintenances (delete id (maintenances db)) db, Val tt).

Definition deleteMaintenance (id : string) : DB -> DB * response :=
  controller (
    maintenance <- Maintenances.findByPk id ;;
    maintenance <- require maintenance (fun _ => true)
                     (failure 404 "Mantenimiento no encontrado") ;;
    reject_if (bool_decide (Maintenance.status maintenance = m_completed))
      (failure 400 "No se puede eliminar un mantenimiento completado") ;;
    Maintenances_destroy id ;;
    ret (ok 200 "Mantenimiento eliminado exitosamente" no_data)).

(** ** The amounts of a rental *)



(** ** vehicleController.js: getAvailableVehicles *)

(** The answer of [GET /api/vehicles/available]: the 400 envelope, or the
    vehicles of [data.vehicles] by primary key (the query has no order). *)
Inductive available_answer :=
| available_error (r : response)
| available_vehicles (vehicles : gmap string Vehicle.t).

(** A vehicle kept by [getAvailableVehicles]: it satisfies the [where] of
    the query, and the rentals included with it (those of this vehicle that
    are reserved, confirmed or active and overlap the dates) are none. *)
Definition free_on (db : DB) (start_date end_date : Z)
    (id : string) (vehicle : Vehicle.t) : bool :=
  vehicle_available vehicle
  && (count_where (conflicting id start_date end_date) (rentals db) =? 0)%nat.

(** The controller for a query without [vehicle_type]; a date is [None]
    when the parameter is missing or empty. *)
Definition getAvailableVehicles (start_date end_date : option Z) (db : DB)
  : available_answer :=
  match start_date, end_date with
  | Some s, Some e =>
      available_vehicles
        (filter (fun kv => free_on db s e kv.1 kv.2 = true) (vehicles db))
  | _, _ =>
      available_error (failure 400 "Fechas de inicio y fin son requeridas")
  end.


(** ** rentalController.js: getRentalStats *)

Record rental_stats := {
  totalRentals : nat;
  activeRentals : nat;
  completedRentals : nat;
  cancelledRentals : nat;
  totalRevenue : Q;
  overdueRentals : nat
}.

(** [dateFilter]: [start_date BETWEEN start_date AND end_date] when both
    query parameters are given, no condition otherwise. *)
Definition dateFilter (start_date end_date : option Z) (r : Rental.t) : bool :=
  match start_date, end_date with
  | Some s, Some e =>
      (s <=? Rental.start_date r) && (Rental.start_date r <=? e)
  | _, _ => true
  end.

Definition has_status (s : RentalStatus) (r : Rental.t) : bool :=
  bool_decide (Rental.rental_status r = s).

(** [{ rental_status: 'active', end_date: { [Op.lt]: new Date() } }] *)
Definition overdue_where (now : Z) (r : Rental.t) : bool :=
  has_status active r && (Rental.end_date r <? now).

(** [Rental.sum('total_amount', { where }) || 0] *)
Definition sum_total_amount (where_ : Rental.t -> bool)
    (t : gmap string Rental.t) : Q :=
  map_fold (fun _ r acc => (acc + Rental.total_amount r)%Q) 0%Q
    (filter (fun kv => where_ kv.2 = true) t).

(** The [data] of the answer of [getRentalStats]. *)
Definition getRentalStats (now : Z) (start_date end_date : option Z)
    (db : DB) : rental_stats :=
  let filtered s r := dateFilter start_date end_date r && has_status s r in
  {| totalRentals := count_where (dateFilter start_date end_date) (rentals db);
     activeRentals := count_where (filtered active) (rentals db);
     completedRentals := count_where (filtered completed) (rentals db);
     cancelledRentals := count_where (filtered cancelled) (rentals db);
     totalRevenue := sum_total_amount (filtered completed) (rentals db);
     overdueRentals := count_where (overdue_where now) (rentals db) |}.

(** ** models/Rental.js: instance methods *)

Definition Rental_isOverdue (today : Z) (r : Rental.t) : bool :=
  if is_terminal (Rental.rental_status r) then false
  else Rental.end_date r <? today.

(** [calculateLateFees(dailyLateFee = 50)] *)
Definition Rental_calculateLateFees (today : Z) (dailyLateFee : option Q)
    (r : Rental.t) : Q :=
  let dailyLateFee := default 50%Q dailyLateFee in
  if negb (Rental_isOverdue today r) then 0%Q
  else
    let daysLate := ceil_div (today - Rental.end_date r) ms_per_day in
    (inject_Z daysLate * dailyLateFee)%Q.

(** ** models/Maintenance.js: isOverdue, and the overdue query *)

Definition Maintenance_isOverdue (today : Z) (m : Maintenance.t) : bool :=
  if bool_decide (Maintenance.status m = m_completed)
     || bool_decide (Maintenance.status m = m_cancelled)
  then false
  else Maintenance.scheduled_date m <? today.

(** [{ status: { [Op.in]: ['scheduled', 'in_progress'] },
       scheduled_date: { [Op.lt]: new Date() } }], the [where] of the
    overdue count of [getMaintenanceStats] and of the overdue list of
    [getVehiclesDueForMaintenance]. *)
Definition overdue_maintenance_where (now : Z) (m : Maintenance.t) : bool :=
  (bool_decide (Maintenance.status m = m_scheduled)
   || bool_decide (Maintenance.status m = m_in_progress))
  && (Maintenance.scheduled_date m <? now).

(** A member of a maintenance update that leaves the status and the
    completion date of the record alone. *)
Definition keeps_status (a : Maintenance.assign) : bool :=
  match a with
  | Maintenance.Set_status _
  | Maintenance.Set_completed_date _ => false
  | _ => true
  end.

(** ** middleware/auth.js *)

From Stdlib Require Import Ascii.

Module User.
Record t := {
  role : string;
  is_active : bool
}.
End User.

(** What [jwt.verify(token, process.env.JWT_SECRET)] does with a token: it
    returns the payload, of which [userId] is read, or throws. *)
Inductive jwt_outcome :=
| Decoded (userId : option string)
| JsonWebTokenError
| TokenExpiredError
| OtherError.

(** [s.split(' ')] *)
Fixpoint split_space (s : string) : list string :=
  match s with
  | EmptyString => [EmptyString]
  | String c rest =>
      if Ascii.eqb c " "%char then EmptyString :: split_space rest
      else
        match split_space rest with
        | piece :: pieces => String c piece :: pieces
        | [] => [String c EmptyString]
        end
  end.

(** [authHeader && authHeader.split(' ')[1]], with [None] for the falsy
    results ([undefined] and ['']). *)
Definition bearer_token (authHeader : option string) : option string :=
  match authHeader with
  | Some header =>
      match nth_error (split_space header) 1 with
      | Some EmptyString => None
      | token => token
      end
  | None => None
  end.

(** [roles.includes(role)] *)
Definition includes (roles : list string) (role : string) : bool :=
  existsb (String.eqb role) roles.

(** [requireRole(...roles)] applied to [req.user]: the answer it sends, or
    [None] when it calls [next()]. *)
Definition requireRole (roles : list string) (user : option User.t)
  : option response :=
  match user with
  | None => Some (failure 401 "Usuario no autenticado")
  | Some user =>
      if negb (includes roles (User.role user))
      then Some (failure 403 "No tienes permisos para realizar esta acción")
      else None
  end.

Section Routes.
(** The token verifier, the table of users and the [isUUID] validator are
    supplied by the environment. *)
Variable verify : string -> jwt_outcome.
Variable users : gmap string User.t.
Variable isUUID : string -> bool.

(** [authenticateToken]: the answer it sends, or the user it stores in
    [req.user] before calling [next()]. *)
Definition authenticateToken (authHeader : option string)
  : response + User.t :=
  match bearer_token authHeader with
  | None => inl (failure 401 "Token de acceso requerido")
  | Some token =>
      match verify token with
      | Decoded userId =>
          match userId ≫= (fun id => users !! id) with
          | Some user =>
              if User.is_active user then inr user
              else inl (failure 401 "Usuario no válido o inactivo")
          | None => inl (failure 401 "Usuario no válido o inactivo")
          end
      | JsonWebTokenError => inl (failure 403 "Token inválido")
      | TokenExpiredError => inl (failure 403 "Token expirado")
      | OtherError => inl (failure 500 "Error interno del servidor")
      end
  end.

(** [router.patch('/:id/mileage', authenticateToken,
      requireRole('admin', 'gestor_flota'), param('id').isUUID(),
      body('current_mileage').isInt({ min: 0 }), handleValidationErrors,
      updateMileage)]; the body member is [None] when it is missing or not
    an integer. *)
Definition patch_vehicle_mileage (authHeader : option string) (id : string)
    (current_mileage : option Z) (db : DB) : DB * response :=
  match authenticateToken authHeader with
  | inl answer => (db, answer)
  | inr user =>
      match requireRole ["admin"; "gestor_flota"] (Some user) with
      | Some answer => (db, answer)
      | None =>
          match current_mileage with
          | Some m =>
              if isUUID id && (0 <=? m) then updateMileage id m db
              else (db, failure 400 "Errores de validación")
          | None => (db, failure 400 "Errores de validación")
          end
      end
  end.

(** [router.delete('/:id', authenticateToken,
      requireRole('admin', 'gestor_flota'), param('id').isUUID(),
      handleValidationErrors, deleteVehicle)] *)
Definition delete_vehicle (authHeader : option string) (id : string)
    (db : DB) : DB * response :=
  match authenticateToken authHeader with
  | inl answer => (db, answer)
  | inr user =>
      match requireRole ["admin"; "gestor_flota"] (Some user) with
      | Some answer => (db, answer)
      | None =>
          if isUUID id then deleteVehicle id db
          else (db, failure 400 "Errores de validación")
      end
  end.

(** The caller is an active user, known to the verifier, with one of the
    two fleet roles. *)
Definition fleet_staff (authHeader : option string) : Prop :=
  exists token id user,
    bearer_token authHeader = Some token
    /\ verify token = Decoded (Some id)
    /\ users !! id = Some user
    /\ User.is_active user = true
    /\ (User.role user = "admin" \/ User.role user = "gestor_flota").
End Routes.

(** The string has no space in it. *)
Fixpoint no_space (s : string) : bool :=
  match s with
  | EmptyString => true
  | String c rest => negb (Ascii.eqb c " "%char) && no_space rest
  end.

(** ** The response envelope *)

(** An answer is either a success with code 200 or 201, or a failure
    without data and with code 400, 404 or 500. *)
Definition envelope_ok (r : response) : Prop :=
  (success r = true /\ (code r = 200 \/ code r = 201))
  \/ (success r = false /\ data r = no_data
      /\ (code r = 400 \/ code r = 404 \/ code r = 500)).

(** The stored mileage of every vehicle satisfies the [min: 0] of the
    model. *)
Definition mileages_valid (db : DB) : Prop :=
  forall k v, vehicles db !! k = Some v -> 0 <= Vehicle.current_mileage v.
(** * Properties *)

(** ** Counting rows *)

Lemma count_where_pos {R} (w : R -> bool) (t : gmap string R) :
  (0 <? count_where w t)%nat = true
  <-> exists k r, t !! k = Some r /\ w r = true.
Proof.
  unfold count_where. rewrite Nat.ltb_lt. split.
  - intros Hpos.
    assert (Hne : size (filter (fun kv : string * R => w kv.2 = true) t) <> 0%nat)
      by lia.
    apply map_size_ne_0_lookup_1 in Hne as [k [r Hr]].
    apply map_lookup_filter_Some in Hr as [Hk Hw]. eauto.
  - intros (k & r & Hk & Hw).
    enough (size (filter (fun kv : string * R => w kv.2 = true) t) <> 0%nat)
      by lia.
    apply (map_size_ne_0_lookup_2 _ k). exists r.
    apply map_lookup_filter_Some. split; done.
Qed.

Lemma count_where_none {R} (w : R -> bool) (t : gmap string R) :
  (0 <? count_where w t)%nat = false
  <-> forall k r, t !! k = Some r -> w r = false.
Proof.
  split.
  - intros Hz k r Hk. destruct (w r) eqn:Hw; [|done].
    assert ((0 <? count_where w t)%nat = true)
      by (apply count_where_pos; eauto).
    congruence.
  - intros Hall. destruct (0 <? count_where w t)%nat eqn:Hc; [|done].
    apply count_where_pos in Hc as (k & r & Hk & Hw).
    rewrite (Hall k r Hk) in Hw. discriminate.
Qed.

(** ** The conflict query against its description *)

Lemma in_active_states_holds (r : Rental.t) :
  in_active_states (Rental.rental_status r) = true <-> holds_vehicle r.
Proof.
  unfold holds_vehicle. destruct (Rental.rental_status r); simpl;
    intuition congruence.
Qed.

Lemma dates_overlap_spec (s e : Z) (r : Rental.t) :
  dates_overlap s e r = true
  <-> starts_inside s e r \/ ends_inside s e r \/ spans s e r.
Proof.
  unfold dates_overlap, starts_inside, ends_inside, spans.
  rewrite !orb_true_iff, !andb_true_iff, !Z.leb_le. tauto.
Qed.

Lemma conflict_query_spec (db : DB) (body : RentalBody.t) :
  (0 <? count_where
          (conflicting (RentalBody.vehicle_id body)
             (RentalBody.start_date body) (RentalBody.end_date body))
          (rentals db))%nat = true
  <-> overlapping_rental db body.
Proof.
  rewrite count_where_pos. unfold overlapping_rental, conflicting.
  split; intros (id & r & Hr & H); exists id, r; (split; [exact Hr|]).
  - rewrite !andb_true_iff, bool_decide_eq_true in H.
    destruct H as [[Hv Hs] Hd].
    rewrite in_active_states_holds in Hs. rewrite dates_overlap_spec in Hd.
    auto.
  - destruct H as (Hv & Hs & Hd).
    rewrite !andb_true_iff, bool_decide_eq_true.
    rewrite in_active_states_holds, dates_overlap_spec. auto.
Qed.

(** ** createRental: the conflict check *)

(** C1. A request for a vehicle that has a reserved, confirmed or active
    rental overlapping the requested dates (bounds included) is answered
    with a 400 failure and the database is left as it was; when the customer
    and the vehicle pass their checks the failure is the overlap message.
    When no such rental exists the conflict query counts nothing and the
    answer is not the overlap rejection. *)
Theorem createRental_conflict_check
    (db : DB) (new_id : string) (body : RentalBody.t) :
  (overlapping_rental db body ->
     fst (createRental new_id body db) = db
     /\ code (snd (createRental new_id body db)) = 400
     /\ success (snd (createRental new_id body db)) = false
     /\ (customer_ok db body ->
         (exists v, vehicle_ok db body v) ->
         snd (createRental new_id body db) = failure 400 overlap_message))
  /\ (~ overlapping_rental db body ->
        count_where
          (conflicting (RentalBody.vehicle_id body)
             (RentalBody.start_date body) (RentalBody.end_date body))
          (rentals db) = 0%nat
        /\ snd (createRental new_id body db) <> failure 400 overlap_message).
Proof.
  pose proof (conflict_query_spec db body) as Hq.
  unfold createRental, controller, bind, Customers.findByPk, Vehicles.findByPk,
    Rentals.count, require, customer_ok, vehicle_ok.
  split.
  - intros Hov. apply Hq in Hov.
    destruct (customers db !! RentalBody.customer_id body) as [c|] eqn:Hc;
      simpl.
    2: { repeat split; try reflexivity. intros (c & Habs & _). discriminate. }
    destruct (Customer.is_active c) eqn:Hact; simpl.
    2: { repeat split; try reflexivity. intros (c' & Hc' & Ha). congruence. }
    destruct (vehicles db !! RentalBody.vehicle_id body) as [v|] eqn:Hv; simpl.
    2: { repeat split; try reflexivity. intros _ (v & Habs & _). discriminate. }
    destruct (vehicle_available v) eqn:Hav; simpl.
    2: { repeat split; try reflexivity. intros _ (v' & Hv' & Ha & Hs).
         assert (v' = v) by congruence. subst v'.
         unfold vehicle_available in Hav. rewrite Ha in Hav. simpl in Hav.
         rewrite bool_decide_eq_false in Hav. contradiction. }
    rewrite Hov. simpl. repeat split; reflexivity.
  - intros Hno.
    assert (Hz : (0 <? count_where
                (conflicting (RentalBody.vehicle_id body)
                   (RentalBody.start_date body) (RentalBody.end_date body))
                (rentals db))%nat = false).
    { destruct (0 <? _)%nat eqn:E; [|reflexivity].
      exfalso. apply Hno, Hq. reflexivity. }
    split. { apply Nat.ltb_ge in Hz. lia. }
    destruct (customers db !! RentalBody.customer_id body) as [c|]; simpl;
      [|discriminate].
    destruct (Customer.is_active c); simpl; [|discriminate].
    destruct (vehicles db !! RentalBody.vehicle_id body) as [v|]; simpl;
      [|discriminate].
    destruct (vehicle_available v); simpl; [|discriminate].
    rewrite Hz. simpl. unfold Rentals.create.
    destruct (create_in _ _ _ _); simpl; [|discriminate].
    unfold Vehicles.update, update_in. simpl. discriminate.
Qed.

Lemma createRental_conflict_check_witness :
  overlapping_rental Scenario.db_reserved_available Scenario.second_request
  /\ createRental "r2" Scenario.second_request Scenario.db_reserved_available
     = (Scenario.db_reserved_available, failure 400 overlap_message)
  /\ ~ overlapping_rental Scenario.db0 Scenario.first_request
  /\ snd (createRental "r1" Scenario.first_request Scenario.db0)
     <> failure 400 overlap_message.
Proof.
  assert (Hov : overlapping_rental Scenario.db_reserved_available
                  Scenario.second_request).
  { exists "r1", (new_rental Scenario.first_request Scenario.V).
    split; [vm_compute; reflexivity|].
    split; [reflexivity|].
    split; [left; reflexivity|].
    right. right. split; vm_compute; discriminate. }
  assert (Hno : ~ overlapping_rental Scenario.db0 Scenario.first_request).
  { intros (id & r & Hr & _). simpl in Hr. rewrite lookup_empty in Hr.
    discriminate. }
  destruct (createRental_conflict_check Scenario.db_reserved_available "r2"
              Scenario.second_request) as [Hyes _].
  destruct (createRental_conflict_check Scenario.db0 "r1"
              Scenario.first_request) as [_ Hpass].
  destruct (Hyes Hov) as (Hdb & _ & _ & Hmsg).
  split; [exact Hov|]. split.
  - apply injective_projections; simpl fst; simpl snd.
    + exact Hdb.
    + apply Hmsg.
      * exists {| Customer.is_active := true |}. split; reflexivity.
      * exists Scenario.V. repeat split; reflexivity.
  - split; [exact Hno|]. exact (proj2 (Hpass Hno)).
Defined.

(** In the scenario itself the first rental has left the vehicle rented, and
    the second request is turned down by the availability check. *)
Example second_request_on_rented_vehicle :
  createRental "r2" Scenario.second_request Scenario.db_reserved
  = (Scenario.db_reserved, failure 400 "Vehículo no disponible").
Proof. vm_compute. reflexivity. Qed.

(** ** Terminal rentals *)

(** C5. On a rental that is completed or cancelled, [cancelRental] and
    [completeRental] answer with a 400 failure and leave the whole database,
    hence the rental and its vehicle, as it was. *)
Theorem terminal_rental_is_frozen
    (db : DB) (id : string) (r : Rental.t) (now : Z)
    (cancellation_reason : option string) (body : CompleteBody.t) :
  rentals db !! id = Some r ->
  Rental.rental_status r = completed \/ Rental.rental_status r = cancelled ->
  cancelRental id cancellation_reason db
    = (db, failure 400 "El alquiler ya está completado o cancelado")
  /\ completeRental now id body db
     = (db, failure 400 "El alquiler debe estar activo para completar").
Proof.
  intros Hr Hs.
  unfold cancelRental, completeRental, controller, bind,
    Rentals.findByPk_include_vehicle, require, reject_if.
  rewrite Hr. simpl.
  destruct Hs as [-> | ->]; simpl; split; reflexivity.
Qed.

Lemma terminal_rental_is_frozen_witness :
  cancelRental "r1" (Some "late") Scenario.db_completed
    = (Scenario.db_completed,
       failure 400 "El alquiler ya está completado o cancelado")
  /\ completeRental (Scenario.day 19730) "r1" (Scenario.return_body 1300)
       Scenario.db_completed
     = (Scenario.db_completed,
        failure 400 "El alquiler debe estar activo para completar").
Proof.
  assert (Hr : exists r, rentals Scenario.db_completed !! "r1" = Some r
                         /\ Rental.rental_status r = completed).
  { eexists. split; vm_compute; reflexivity. }
  destruct Hr as (r & Hr & Hs).
  apply (terminal_rental_is_frozen _ _ r); [exact Hr | left; exact Hs].
Defined.

(** ** Soft deletes *)

Lemma alter_Some {R} (f : R -> R) (t : gmap string R) (id : string) (x : R) :
  t !! id = Some x -> alter f id t = <[id := f x]> t.
Proof.
  intros Hx. apply map_eq. intros j.
  rewrite lookup_alter, lookup_insert.
  destruct (decide (id = j)); [rewrite Hx|]; reflexivity.
Qed.





(** ** updateMileage *)







(** ** createRental: the created rental *)

Lemma ms_per_day_pos : 0 < ms_per_day.
Proof. reflexivity. Qed.

(** [ceil_div a b] is the least integer [n] with [a <= b * n]. *)
Lemma ceil_div_spec (a b : Z) :
  0 < b -> b * (ceil_div a b - 1) < a <= b * ceil_div a b.
Proof.
  intros Hb. unfold ceil_div.
  pose proof (Z.div_mod (- a) b ltac:(lia)) as Hdm.
  pose proof (Z.mod_pos_bound (- a) b Hb) as Hm.
  nia.
Qed.

Lemma ceil_div_positive (a b : Z) : 0 < b -> 0 < a -> 1 <= ceil_div a b.
Proof.
  intros Hb Ha. pose proof (ceil_div_spec a b Hb) as H. nia.
Qed.

Lemma ceil_div_not_positive (a b : Z) : 0 < b -> a <= 0 -> ceil_div a b <= 0.
Proof.
  intros Hb Ha. pose proof (ceil_div_spec a b Hb) as H. nia.
Qed.







(** ** Running a handler step by step *)

Lemma bind_Val {A B} (m : handler A) (k : A -> handler B)
    (db db1 : DB) (a : A) :
  m db = (db1, Val a) -> bind m k db = k a db1.
Proof. intros H. unfold bind. rewrite H. reflexivity. Qed.

Lemma bind_Thrown {A B} (m : handler A) (k : A -> handler B) (db db1 : DB) :
  m db = (db1, Thrown) -> bind m k db = (db1, Thrown).
Proof. intros H. unfold bind. rewrite H. reflexivity. Qed.

Lemma Rentals_update_accepts (db : DB) (id : string)
    (values : list Rental.assign) (r : Rental.t) :
  rentals db !! id = Some r ->
  forallb Rental.valid values = true ->
  Rentals.update id values db
  = (with_rentals (<[id := assign_all Rental.set values r]> (rentals db)) db,
     Val tt).
Proof.
  intros Hr Hvalid. unfold Rentals.update, update_in.
  rewrite Hvalid, (alter_Some _ _ _ r Hr). reflexivity.
Qed.

Lemma Vehicles_update_accepts (db : DB) (id : string)
    (values : list Vehicle.assign) (v : Vehicle.t) :
  vehicles db !! id = Some v ->
  forallb Vehicle.valid values = true ->
  Vehicles.update id values db
  = (with_vehicles (<[id := assign_all Vehicle.set values v]> (vehicles db)) db,
     Val tt).
Proof.
  intros Hv Hvalid. unfold Vehicles.update, update_in.
  rewrite Hvalid, (alter_Some _ _ _ v Hv). reflexivity.
Qed.

(** ** completeRental *)







(** The model rejects a total_amount below 0: a rental created with 100 of
    additional charges and a discount of 300 (total 38), returned on time
    without new charges, would total -62, and the call is answered 500. *)
Example completeRental_negative_total :
  completeRental (Scenario.day 19727) "r1"
    {| CompleteBody.return_mileage := Some 1200;
       CompleteBody.additional_charges := None;
       CompleteBody.actual_return_date := None |}
    Scenario.db_discounted_active
  = (Scenario.db_discounted_active,
     failure 500 "Error interno del servidor").
Proof. vm_compute. reflexivity. Qed.

(** ** The rental lifecycle *)

Lemma createRental_step (db : DB) (new_id : string) (body : RentalBody.t) :
  rentals_step (CreateRental new_id body) (rentals db)
    (rentals (fst (createRental new_id body db))).
Proof.
  unfold createRental. unfold_handlers.
  run_handler; try (apply step_none; reflexivity).
  eapply step_insert; [eassumption | reflexivity].
Qed.

Lemma updateRental_step (db : DB) (id : string)
    (updateData : list Rental.assign) :
  rentals_step (UpdateRental id updateData) (rentals db)
    (rentals (fst (updateRental id updateData db))).
Proof.
  unfold updateRental. unfold_handlers.
  destruct (rentals db !! id) as [r|] eqn:Hr; simpl;
    [|apply step_none; reflexivity].
  destruct (is_terminal (Rental.rental_status r)) eqn:Ht; simpl;
    [apply step_none; reflexivity|].
  destruct (forallb Rental.valid updateData); simpl;
    [|apply step_none; reflexivity].
  rewrite (alter_Some _ _ _ r Hr).
  eapply step_rewrite; [exact Hr | reflexivity | exact Ht | discriminate].
Qed.

Lemma cancelRental_step (db : DB) (id : string) (reason : option string) :
  rentals_step (CancelRental id reason) (rentals db)
    (rentals (fst (cancelRental id reason db))).
Proof.
  unfold cancelRental. unfold_handlers.
  destruct (rentals db !! id) as [r|] eqn:Hr; simpl;
    [|apply step_none; reflexivity].
  destruct (is_terminal (Rental.rental_status r)) eqn:Ht; simpl;
    [apply step_none; reflexivity|].
  rewrite (alter_Some _ _ _ r Hr).
  destruct (vehicles db !! Rental.vehicle_id r); simpl;
    (eapply step_rewrite;
     [exact Hr | reflexivity | exact Ht
     | intros _; right; right; split; [exact Ht | reflexivity]]).
Qed.

Lemma startRental_step (db : DB) (id : string) (pickup_mileage : option Z) :
  rentals_step (StartRental id pickup_mileage) (rentals db)
    (rentals (fst (startRental id pickup_mileage db))).
Proof.
  unfold startRental. unfold_handlers.
  destruct (rentals db !! id) as [r|] eqn:Hr; simpl;
    [|apply step_none; reflexivity].
  destruct (bool_decide (Rental.rental_status r = confirmed)) eqn:Hc; simpl;
    [|apply step_none; reflexivity].
  apply bool_decide_eq_true in Hc.
  assert (Ht : is_terminal (Rental.rental_status r) = false)
    by (rewrite Hc; reflexivity).
  assert (Hmove : forall r',
             Rental.rental_status r' = active ->
             lifecycle_move (Rental.rental_status r) (Rental.rental_status r')).
  { intros r' Hr'. right. left. rewrite Hc, Hr'. exact I. }
  destruct pickup_mileage as [m|]; simpl.
  - destruct (min_Z 0 m); simpl; [|apply step_none; reflexivity].
    rewrite (alter_Some _ _ _ r Hr).
    destruct (vehicles db !! Rental.vehicle_id r); simpl;
      [destruct (m =? 0); simpl; [|destruct (min_Z 0 m); simpl]|];
      (eapply step_rewrite;
       [exact Hr | reflexivity | exact Ht | intros _; apply Hmove; reflexivity]).
  - rewrite (alter_Some _ _ _ r Hr).
    destruct (vehicles db !! Rental.vehicle_id r); simpl;
      (eapply step_rewrite;
       [exact Hr | reflexivity | exact Ht | intros _; apply Hmove; reflexivity]).
Qed.

Lemma completeRental_step (db : DB) (now : Z) (id : string)
    (body : CompleteBody.t) :
  rentals_step (CompleteRental now id body) (rentals db)
    (rentals (fst (completeRental now id body db))).
Proof.
  unfold completeRental. unfold_handlers.
  destruct (rentals db !! id) as [r|] eqn:Hr; simpl;
    [|apply step_none; reflexivity].
  destruct (bool_decide (Rental.rental_status r = active)) eqn:Hc; simpl;
    [|apply step_none; reflexivity].
  apply bool_decide_eq_true in Hc.
  assert (Ht : is_terminal (Rental.rental_status r) = false)
    by (rewrite Hc; reflexivity).
  assert (Hmove : forall r',
             Rental.rental_status r' = completed ->
             lifecycle_move (Rental.rental_status r) (Rental.rental_status r')).
  { intros r' Hr'. right. left. rewrite Hc, Hr'. exact I. }
  match goal with
  | |- context [forallb Rental.valid ?l] =>
      destruct (forallb Rental.valid l); simpl
  end; [|apply step_none; reflexivity].
  rewrite (alter_Some _ _ _ r Hr).
  destruct (vehicles db !! Rental.vehicle_id r); simpl;
    [match goal with
     | |- context [min_Z 0 ?m] => destruct (min_Z 0 m); simpl
     end|];
    (eapply step_rewrite;
     [ exact Hr | reflexivity | exact Ht
     | intros _; apply Hmove;
       destruct (CompleteBody.return_mileage body); reflexivity ]).
Qed.

Lemma serve_step (q : rental_request) (db : DB) :
  rentals_step q (rentals db) (rentals (fst (serve q db))).
Proof.
  destruct q; simpl.
  - apply createRental_step.
  - apply updateRental_step.
  - apply startRental_step.
  - apply completeRental_step.
  - apply cancelRental_step.
Qed.

(** C4 (amended). No request removes a rental; a rental that is completed
    or cancelled keeps its status under every request; and every request
    other than [updateRental] leaves the status of each rental where it is,
    moves it forward along reserved, confirmed, active, completed, or
    cancels a rental that was not yet completed or cancelled. *)
Theorem rental_status_moves
    (q : rental_request) (db : DB) (id : string) (r : Rental.t) :
  rentals db !! id = Some r ->
  exists r',
    rentals (fst (serve q db)) !! id = Some r'
    /\ (is_terminal (Rental.rental_status r) = true ->
        Rental.rental_status r' = Rental.rental_status r)
    /\ (is_update q = false ->
        lifecycle_move (Rental.rental_status r) (Rental.rental_status r')).
Proof.
  intros Hr.
  destruct (serve_step q db) as [Heq | id0 r0 Hnew Heq | id0 r0 r0' H0 Heq Ht Hmv];
    rewrite Heq.
  - exists r. split; [exact Hr|]. split; [reflexivity | intros _; left; reflexivity].
  - exists r. split.
    + rewrite lookup_insert_ne; [exact Hr | congruence].
    + split; [reflexivity | intros _; left; reflexivity].
  - destruct (decide (id0 = id)) as [-> | Hne].
    + exists r0'. split; [apply lookup_insert_eq|].
      assert (r0 = r) by congruence. subst r0.
      split; [intros Hterm; congruence | exact Hmv].
    + exists r. split; [rewrite lookup_insert_ne; [exact Hr | exact Hne]|].
      split; [reflexivity | intros _; left; reflexivity].
Qed.

Lemma rental_status_moves_witness :
  exists r',
    rentals (fst (serve (CancelRental "r1" None) Scenario.db_active)) !! "r1"
    = Some r'
    /\ lifecycle_move active (Rental.rental_status r').
Proof.
  destruct (rental_status_moves (CancelRental "r1" None) Scenario.db_active
              "r1" Scenario.active_rental)
    as (r' & Hr' & _ & Hmove).
  - vm_compute. reflexivity.
  - exists r'. split; [exact Hr' | apply Hmove; reflexivity].
Defined.

(** C4 fails as stated: [updateRental] with [rental_status: 'reserved']
    takes the active rental of the scenario back to reserved. *)
Lemma updateRental_moves_backwards :
  rentals Scenario.db_active !! "r1" = Some Scenario.active_rental
  /\ Rental.rental_status Scenario.active_rental = active
  /\ exists r',
       rentals (fst (serve (UpdateRental "r1"
                              [Rental.Set_rental_status reserved])
                       Scenario.db_active)) !! "r1" = Some r'
       /\ Rental.rental_status r' = reserved
       /\ forward reserved active
       /\ ~ lifecycle_move active (Rental.rental_status r').
Proof.
  split; [vm_compute; reflexivity|]. split; [reflexivity|].
  eexists. split; [vm_compute; reflexivity|].
  split; [reflexivity|]. split; [exact I|].
  simpl. unfold lifecycle_move, forward.
  intros [H | [H | [_ H]]]; [discriminate | exact H | discriminate].
Qed.

(** ** createRental: dates out of order *)

Lemma new_rental_rejected (body : RentalBody.t) (v : Vehicle.t) :
  RentalBody.end_date body <= RentalBody.start_date body ->
  Rental_valid_row (new_rental body v) = false.
Proof.
  intros Hdates.
  pose proof (ceil_div_not_positive
                (RentalBody.end_date body - RentalBody.start_date body)
                ms_per_day ms_per_day_pos ltac:(lia)) as Hdays.
  unfold Rental_valid_row. cbn [forallb].
  assert (Hmin : Rental.valid
                   (Rental.Set_total_days
                      (Rental.total_days (new_rental body v))) = false).
  { simpl. unfold min_Z. apply Z.leb_gt. lia. }
  rewrite Hmin. rewrite andb_false_l. apply andb_false_r.
Qed.

(** C6, what the code does. When start_date is not before end_date and
    every other check passes, total_days is not positive, [Rental.create]
    rejects the row, and the answer is the 500 of the catch clause; nothing
    is written. *)
Theorem createRental_unordered_dates
    (db : DB) (new_id : string) (body : RentalBody.t) (v : Vehicle.t) :
  customer_ok db body ->
  vehicle_ok db body v ->
  ~ overlapping_rental db body ->
  RentalBody.end_date body <= RentalBody.start_date body ->
  createRental new_id body db
  = (db, failure 500 "Error interno del servidor").
Proof.
  intros (c & Hc & Hact) (Hv & Hvact & Hvst) Hno Hdates.
  assert (Hz : (0 <? count_where
                  (conflicting (RentalBody.vehicle_id body)
                     (RentalBody.start_date body) (RentalBody.end_date body))
                  (rentals db))%nat = false).
  { destruct (0 <? _)%nat eqn:E; [|reflexivity].
    exfalso. apply Hno, conflict_query_spec. exact E. }
  assert (Hav : vehicle_available v = true).
  { unfold vehicle_available. rewrite Hvact, Hvst. reflexivity. }
  unfold createRental, controller.
  rewrite (bind_Val _ _ db db (Some c))
    by (unfold Customers.findByPk; rewrite Hc; reflexivity).
  rewrite (bind_Val _ _ db db c) by (simpl; rewrite Hact; reflexivity).
  rewrite (bind_Val _ _ db db (Some v))
    by (unfold Vehicles.findByPk; rewrite Hv; reflexivity).
  rewrite (bind_Val _ _ db db v) by (simpl; rewrite Hav; reflexivity).
  rewrite (bind_Val _ _ db db
             (count_where
                (conflicting (RentalBody.vehicle_id body)
                   (RentalBody.start_date body) (RentalBody.end_date body))
                (rentals db))) by reflexivity.
  rewrite (bind_Val _ _ db db tt) by (rewrite Hz; reflexivity).
  rewrite (bind_Thrown _ _ db db); [reflexivity|].
  unfold Rentals.create, create_in.
  rewrite (new_rental_rejected body v Hdates). reflexivity.
Qed.

Lemma createRental_unordered_dates_witness :
  createRental "r1"
    (Scenario.request (Scenario.day 19727) (Scenario.day 19727) None)
    Scenario.db0
  = (Scenario.db0, failure 500 "Error interno del servidor")
  /\ createRental "r1"
       (Scenario.request (Scenario.day 19727) (Scenario.day 19723) None)
       Scenario.db0
     = (Scenario.db0, failure 500 "Error interno del servidor").
Proof.
  split.
  - apply (createRental_unordered_dates _ _ _ Scenario.V).
    + exists {| Customer.is_active := true |}. split; reflexivity.
    + repeat split; reflexivity.
    + intros (id & r & Hr & _). simpl in Hr. rewrite lookup_empty in Hr.
      discriminate.
    + simpl. lia.
  - apply (createRental_unordered_dates _ _ _ Scenario.V).
    + exists {| Customer.is_active := true |}. split; reflexivity.
    + repeat split; reflexivity.
    + intros (id & r & Hr & _). simpl in Hr. rewrite lookup_empty in Hr.
      discriminate.
    + vm_compute. discriminate.
Defined.

(** ** createMaintenance *)



(** ** The status of maintenance records *)

Lemma beforeUpdate_settled (now : Z) (m : Maintenance.t) :
  settled now (Maintenances.beforeUpdate now m).
Proof.
  unfold settled, Maintenances.beforeUpdate.
  destruct (Maintenance.completed_date m) as [d|] eqn:Hdone.
  - simpl. rewrite Hdone. split; [reflexivity | discriminate].
  - destruct ((Maintenance.scheduled_date m <? now)
              && bool_decide (Maintenance.status m = m_scheduled)) eqn:Hpast.
    + simpl. rewrite Hdone. split; [intros [d Hd]; discriminate|].
      intros _ _. discriminate.
    + rewrite Hdone. split; [intros [d Hd]; discriminate|].
      intros _ Hlt Hst.
      apply andb_false_iff in Hpast as [Hpast | Hpast].
      * apply Z.ltb_ge in Hpast. lia.
      * apply bool_decide_eq_false in Hpast. contradiction.
Qed.

(** C9 (amended). Every request that rewrites a maintenance record
    (update, start, complete) and is answered 200 leaves that record with a
    status that agrees with its dates at the time of the request: completed
    when a completion date is set, and otherwise not scheduled when the
    scheduled date has passed; a request that is not answered 200 leaves
    the table of maintenances as it was. *)
Theorem maintenance_settled_by_update
    (now : Z) (id : string) (q : maintenance_update) (db : DB)
    (m : Maintenance.t) :
  maintenances db !! id = Some m ->
  (code (snd (serve_update now id q db)) = 200 ->
   exists m',
     maintenances (fst (serve_update now id q db)) !! id = Some m'
     /\ settled now m')
  /\ (code (snd (serve_update now id q db)) <> 200 ->
      maintenances (fst (serve_update now id q db)) = maintenances db).
Proof.
  intros Hm.
  destruct q as [updateData | mileage | cost next]; simpl;
    [unfold updateMaintenance | unfold startMaintenance
    | unfold completeMaintenance];
    unfold_maintenance; rewrite Hm; simpl; run_handler;
    (split; intros Hcode;
     [ first
         [ discriminate Hcode
         | rewrite (alter_Some _ _ _ m Hm), lookup_insert_eq;
           eexists; (split; [reflexivity | apply beforeUpdate_settled]) ]
     | first [ reflexivity | exfalso; apply Hcode; reflexivity ] ]).
Qed.

Lemma maintenance_settled_by_update_witness :
  exists m' m'',
    maintenances
      (fst (serve_update (Scenario.day 19729) "m1"
              (StartMaintenance (Some 1000)) Scenario.db_maintenance)) !! "m1"
    = Some m'
    /\ settled (Scenario.day 19729) m'
    /\ maintenances
         (fst (serve_update (Scenario.day 19729) "m1"
                 (UpdateMaintenance []) Scenario.db_maintenance)) !! "m1"
       = Some m''
    /\ settled (Scenario.day 19729) m''
    /\ Maintenance.status m'' = m_overdue.
Proof.
  destruct (maintenance_settled_by_update (Scenario.day 19729) "m1"
              (StartMaintenance (Some 1000)) Scenario.db_maintenance
              (new_maintenance (Scenario.maintenance_request None None))
              eq_refl) as [Hstart _].
  destruct (maintenance_settled_by_update (Scenario.day 19729) "m1"
              (UpdateMaintenance []) Scenario.db_maintenance
              (new_maintenance (Scenario.maintenance_request None None))
              eq_refl) as [Hupdate _].
  destruct (Hstart eq_refl) as (m' & Hm' & Hs').
  destruct (Hupdate eq_refl) as (m'' & Hm'' & Hs'').
  exists m', m''.
  split; [exact Hm'|]. split; [exact Hs'|].
  split; [exact Hm''|]. split; [exact Hs''|].
  assert (Hrow : maintenances
                   (fst (serve_update (Scenario.day 19729) "m1"
                           (UpdateMaintenance []) Scenario.db_maintenance))
                   !! "m1"
                 = Some (Maintenance.set (Maintenance.Set_status m_overdue)
                           (new_maintenance
                              (Scenario.maintenance_request None None))))
    by (vm_compute; reflexivity).
  rewrite Hrow in Hm''. injection Hm'' as <-. reflexivity.
Defined.

(** C9 fails as stated: the maintenance created for 2024-01-01 is stored as
    scheduled and stays so; on 2024-01-07 its scheduled date has passed and
    its status is still scheduled. *)
Lemma createMaintenance_leaves_scheduled :
  exists m,
    maintenances
      (fst (createMaintenance "m1" (Scenario.maintenance_request None None)
              Scenario.db0)) !! "m1" = Some m
    /\ Maintenance.status m = m_scheduled
    /\ Maintenance.completed_date m = None
    /\ Maintenance.scheduled_date m < Scenario.day 19729
    /\ ~ settled (Scenario.day 19729) m.
Proof.
  exists (new_maintenance (Scenario.maintenance_request None None)).
  split; [vm_compute; reflexivity|].
  split; [reflexivity|]. split; [reflexivity|]. split; [reflexivity|].
  intros [_ Hpast]. apply Hpast; reflexivity.
Qed.

(** * Further properties of the controllers *)

(** ** The overlap test *)


(** X1. For a stored rental and a request that both end no earlier than
    they start, the [Op.or] of the conflict query is the usual test for two
    closed intervals to share an instant. *)
Theorem dates_overlap_intersection (s e : Z) (r : Rental.t) :
  Rental.start_date r <= Rental.end_date r ->
  s <= e ->
  dates_overlap s e r = true
  <-> Rental.start_date r <= e /\ s <= Rental.end_date r.
Proof.
  intros Hr Hq. rewrite dates_overlap_spec.
  unfold starts_inside, ends_inside, spans. split.
  - intros [H | [H | H]]; lia.
  - intros [H1 H2].
    destruct (Z_le_gt_dec s (Rental.start_date r)); [left; lia|].
    destruct (Z_le_gt_dec (Rental.end_date r) e); [right; left; lia|].
    right; right; lia.
Qed.

Lemma dates_overlap_intersection_witness :
  dates_overlap (Scenario.day 19725) (Scenario.day 19726)
    Scenario.active_rental = true
  /\ dates_overlap (Scenario.day 19727) (Scenario.day 19730)
       Scenario.active_rental = true
  /\ dates_overlap (Scenario.day 19728) (Scenario.day 19730)
       Scenario.active_rental = false.
Proof.
  assert (Hr : Rental.start_date Scenario.active_rental
               <= Rental.end_date Scenario.active_rental)
    by (vm_compute; discriminate).
  split; [|split].
  - apply (dates_overlap_intersection _ _ _ Hr); vm_compute;
      [discriminate | split; discriminate].
  - apply (dates_overlap_intersection _ _ _ Hr); vm_compute;
      [discriminate | split; discriminate].
  - destruct (dates_overlap (Scenario.day 19728) (Scenario.day 19730)
                Scenario.active_rental) eqn:E; [|reflexivity].
    apply (dates_overlap_intersection _ _ _ Hr) in E;
      [|vm_compute; discriminate].
    destruct E as [_ E]. vm_compute in E. exfalso. apply E. reflexivity.
Defined.

(** ** createRental: the customer and vehicle checks *)

(** X2. A request whose customer is missing or inactive is answered with
    the 400 of the customer check; with a valid customer, a request whose
    vehicle is missing, inactive or not available is answered with the 400
    of the vehicle check.  Neither writes anything. *)
Theorem createRental_rejects_customer_and_vehicle
    (db : DB) (new_id : string) (body : RentalBody.t) :
  (~ customer_ok db body ->
     createRental new_id body db
     = (db, failure 400 "Cliente no encontrado o inactivo"))
  /\ (customer_ok db body ->
      ~ (exists v, vehicle_ok db body v) ->
      createRental new_id body db
      = (db, failure 400 "Vehículo no disponible")).
Proof.
  unfold createRental, controller, bind, Customers.findByPk, Vehicles.findByPk,
    require, customer_ok, vehicle_ok.
  split.
  - intros Hno.
    destruct (customers db !! RentalBody.customer_id body) as [c|] eqn:Hc;
      simpl; [|reflexivity].
    destruct (Customer.is_active c) eqn:Hact; simpl; [|reflexivity].
    exfalso. apply Hno. exists c. split; [reflexivity | exact Hact].
  - intros (c & Hc & Hact) Hno. rewrite Hc. simpl. rewrite Hact. simpl.
    destruct (vehicles db !! RentalBody.vehicle_id body) as [v|] eqn:Hv;
      simpl; [|reflexivity].
    destruct (vehicle_available v) eqn:Hav; simpl; [|reflexivity].
    exfalso. apply Hno. exists v.
    unfold vehicle_available in Hav.
    apply andb_true_iff in Hav as [Ha Hs].
    apply bool_decide_eq_true in Hs. repeat split; assumption.
Qed.

Lemma createRental_rejects_customer_and_vehicle_witness :
  createRental "r2" Scenario.second_request Scenario.db_reserved
  = (Scenario.db_reserved, failure 400 "Vehículo no disponible")
  /\ createRental "r1" Scenario.first_request
       (with_customers ∅ Scenario.db0)
     = (with_customers ∅ Scenario.db0,
        failure 400 "Cliente no encontrado o inactivo").
Proof.
  split.
  - apply (createRental_rejects_customer_and_vehicle Scenario.db_reserved).
    + exists {| Customer.is_active := true |}. split; reflexivity.
    + intros (v & Hv & _ & Hs).
      assert (Hrow : vehicles Scenario.db_reserved !! "v1"
                     = Some Scenario.rented_vehicle)
        by (vm_compute; reflexivity).
      simpl in Hv. rewrite Hrow in Hv. injection Hv as <-. discriminate.
  - apply (createRental_rejects_customer_and_vehicle
             (with_customers ∅ Scenario.db0)).
    intros (c & Hc & _). simpl in Hc. rewrite lookup_empty in Hc.
    discriminate.
Defined.

(** ** createRental keeps vehicles free of double bookings *)

(** What an answer 201 of [createRental] tells about the request. *)
Lemma createRental_created (db : DB) (new_id : string) (body : RentalBody.t) :
  code (snd (createRental new_id body db)) = 201 ->
  exists v,
    vehicle_ok db body v
    /\ customer_ok db body
    /\ ~ overlapping_rental db body
    /\ Rental_valid_row (new_rental body v) = true
    /\ rentals db !! new_id = None
    /\ fst (createRental new_id body db)
       = with_vehicles
           (<[RentalBody.vehicle_id body :=
                Vehicle.set (Vehicle.Set_status rented) v]> (vehicles db))
           (with_rentals (<[new_id := new_rental body v]> (rentals db)) db).
Proof.
  pose proof (conflict_query_spec db body) as Hq.
  unfold createRental, controller, bind, Customers.findByPk, Vehicles.findByPk,
    Rentals.count, require, reject_if, customer_ok, vehicle_ok.
  destruct (customers db !! RentalBody.customer_id body) as [c|] eqn:Hc;
    simpl; [|discriminate].
  destruct (Customer.is_active c) eqn:Hact; simpl; [|discriminate].
  destruct (vehicles db !! RentalBody.vehicle_id body) as [v|] eqn:Hv;
    simpl; [|discriminate].
  destruct (vehicle_available v) eqn:Hav; simpl; [|discriminate].
  destruct (0 <? count_where _ (rentals db))%nat eqn:Hcount; simpl;
    [discriminate|].
  unfold Rentals.create, create_in.
  destruct (Rental_valid_row (new_rental body v)) eqn:Hvalid; simpl;
    [|discriminate].
  destruct (rentals db !! new_id) eqn:Hfresh; simpl; [discriminate|].
  unfold Vehicles.update, update_in. simpl.
  intros _. exists v.
  unfold vehicle_available in Hav. apply andb_true_iff in Hav as [Ha Hs].
  apply bool_decide_eq_true in Hs.
  split; [repeat split; assumption|].
  split; [exists c; split; [reflexivity | exact Hact]|].
  split; [intros Hov; apply Hq in Hov; congruence|].
  split; [exact Hvalid|]. split; [reflexivity|].
  rewrite (alter_Some _ _ _ v Hv). reflexivity.
Qed.




(** ** Creating and cancelling *)

Lemma set_available_rented (v : Vehicle.t) :
  Vehicle.status v = available ->
  Vehicle.set (Vehicle.Set_status available)
    (Vehicle.set (Vehicle.Set_status rented) v) = v.
Proof. destruct v. simpl. intros ->. reflexivity. Qed.

Lemma cancelled_releases (t : gmap string Rental.t) (id : string)
    (r : Rental.t) (db : DB) (body : RentalBody.t) :
  rentals db !! id = None ->
  ~ holds_vehicle r ->
  overlapping_rental (with_rentals (<[id := r]> (rentals db)) db) body
  <-> overlapping_rental db body.
Proof.
  intros Hfresh Hr. unfold overlapping_rental. simpl.
  split; intros (k & r0 & Hk & Hrest).
  - destruct (decide (k = id)) as [-> | Hne].
    + rewrite lookup_insert_eq in Hk. injection Hk as <-.
      destruct Hrest as (_ & Hh & _). contradiction.
    + rewrite lookup_insert_ne in Hk by congruence. eauto.
  - exists k, r0. split; [|exact Hrest].
    rewrite lookup_insert_ne; [exact Hk | congruence].
Qed.

(** X4. A rental that [createRental] has just created (answer 201, with a
    status that is not completed or cancelled) can be cancelled at once:
    [cancelRental] answers 200, the rental is kept as cancelled, the
    vehicles are exactly as before the creation, and the cancelled rental
    blocks no dates. *)
Theorem create_then_cancel
    (db : DB) (new_id : string) (body : RentalBody.t)
    (reason : option string) :
  code (snd (createRental new_id body db)) = 201 ->
  is_terminal (default reserved (RentalBody.rental_status body)) = false ->
  let db1 := fst (createRental new_id body db) in
  let db2 := fst (cancelRental new_id reason db1) in
  snd (cancelRental new_id reason db1)
  = ok 200 "Alquiler cancelado exitosamente" no_data
  /\ vehicles db2 = vehicles db
  /\ (exists r, rentals db2 = <[new_id := r]> (rentals db)
                /\ Rental.rental_status r = cancelled
                /\ Rental.additional_notes r = or_string reason None)
  /\ (forall body', overlapping_rental db2 body'
                    <-> overlapping_rental db body').
Proof.
  intros Hcode Hlive db1 db2. subst db2 db1.
  destruct (createRental_created db new_id body Hcode)
    as (v & (Hv & Hvact & Hvst) & _ & _ & _ & Hfresh & ->).
  set (r := new_rental body v).
  set (db1 := with_vehicles _ _).
  assert (Hr1 : rentals db1 !! new_id = Some r) by apply lookup_insert_eq.
  assert (Hv1 : vehicles db1 !! Rental.vehicle_id r
                = Some (Vehicle.set (Vehicle.Set_status rented) v))
    by apply lookup_insert_eq.
  set (r' := assign_all Rental.set
               [Rental.Set_rental_status cancelled;
                Rental.Set_additional_notes
                  (or_string reason (Rental.additional_notes r))] r).
  assert (Hrun : cancelRental new_id reason db1
                 = (with_vehicles (vehicles db)
                      (with_rentals (<[new_id := r']> (rentals db)) db),
                    ok 200 "Alquiler cancelado exitosamente" no_data)).
  { unfold cancelRental, controller.
    rewrite (bind_Val _ _ db1 db1
               (Some (r, Some (Vehicle.set (Vehicle.Set_status rented) v))))
      by (unfold Rentals.findByPk_include_vehicle; rewrite Hr1, Hv1;
          reflexivity).
    rewrite (bind_Val _ _ db1 db1
               (r, Some (Vehicle.set (Vehicle.Set_status rented) v)))
      by reflexivity.
    rewrite (bind_Val _ _ db1 db1 tt)
      by (unfold reject_if;
          change (Rental.rental_status r)
            with (default reserved (RentalBody.rental_status body));
          rewrite Hlive; reflexivity).
    rewrite (bind_Val _ _ db1 _ tt)
      by (apply (Rentals_update_accepts db1 new_id _ r Hr1); reflexivity).
    rewrite (bind_Val _ _ _ _ tt)
      by (apply (Vehicles_update_accepts _ _ _
                   (Vehicle.set (Vehicle.Set_status rented) v));
          [exact Hv1 | reflexivity]).
    assert (Hveh : <[Rental.vehicle_id r :=
                       assign_all Vehicle.set [Vehicle.Set_status available]
                         (Vehicle.set (Vehicle.Set_status rented) v)]>
                     (<[RentalBody.vehicle_id body :=
                          Vehicle.set (Vehicle.Set_status rented) v]>
                        (vehicles db))
                   = vehicles db).
    { change (Rental.vehicle_id r) with (RentalBody.vehicle_id body).
      rewrite insert_insert_eq.
      change (assign_all Vehicle.set [Vehicle.Set_status available]
                (Vehicle.set (Vehicle.Set_status rented) v))
        with (Vehicle.set (Vehicle.Set_status available)
                (Vehicle.set (Vehicle.Set_status rented) v)).
      rewrite (set_available_rented v Hvst).
      apply insert_id. exact Hv. }
    unfold ret, db1, with_vehicles, with_rentals.
    cbn [vehicles rentals customers maintenances].
    fold r'. rewrite Hveh, insert_insert_eq. reflexivity. }
  rewrite Hrun. simpl.
  split; [reflexivity|]. split; [reflexivity|].
  split.
  - exists r'. repeat split.
  - intros body'.
    apply (cancelled_releases (rentals db) new_id r'
             (with_vehicles (vehicles db) db) body' Hfresh).
    intros [H | [H | H]]; discriminate.
Qed.

Lemma create_then_cancel_witness :
  vehicles (fst (cancelRental "r1" (Some "changed plans")
                   Scenario.db_reserved))
  = vehicles Scenario.db0
  /\ snd (cancelRental "r1" (Some "changed plans") Scenario.db_reserved)
     = ok 200 "Alquiler cancelado exitosamente" no_data.
Proof.
  destruct (create_then_cancel Scenario.db0 "r1" Scenario.first_request
              (Some "changed plans") eq_refl eq_refl)
    as (Hans & Hveh & _).
  split; [exact Hveh | exact Hans].
Defined.

(** ** startRental *)



(** ** Missing rows *)

(** X6. Every controller that works on one row answers 404 with the
    message of its model, and writes nothing, when no row has the given
    key. *)
Theorem missing_row_is_404 (db : DB) (id : string) :
  (rentals db !! id = None ->
     (forall updateData,
        updateRental id updateData db
        = (db, failure 404 "Alquiler no encontrado"))
     /\ (forall reason,
           cancelRental id reason db
           = (db, failure 404 "Alquiler no encontrado"))
     /\ (forall pickup_mileage,
           startRental id pickup_mileage db
           = (db, failure 404 "Alquiler no encontrado"))
     /\ (forall now body,
           completeRental now id body db
           = (db, failure 404 "Alquiler no encontrado")))
  /\ (vehicles db !! id = None ->
        deleteVehicle id db = (db, failure 404 "Vehículo no encontrado")
        /\ (forall m,
              updateMileage id m db
              = (db, failure 404 "Vehículo no encontrado"))
        /\ (forall updateData,
              updateVehicle id updateData db
              = (db, failure 404 "Vehículo no encontrado")))
  /\ (customers db !! id = None ->
        deleteCustomer id db = (db, failure 404 "Cliente no encontrado"))
  /\ (maintenances db !! id = None ->
        (forall now q,
           serve_update now id q db
           = (db, failure 404 "Mantenimiento no encontrado"))
        /\ deleteMaintenance id db
           = (db, failure 404 "Mantenimiento no encontrado")).
Proof.
  split; [|split; [|split]]; intros Hnone.
  - unfold updateRental, cancelRental, startRental, completeRental,
      controller, bind, Rentals.findByPk, Rentals.findByPk_include_vehicle,
      require.
    rewrite Hnone. repeat split.
  - unfold deleteVehicle, updateMileage, updateVehicle, controller, bind,
      Vehicles.findByPk, require.
    rewrite Hnone. repeat split.
  - unfold deleteCustomer, controller, bind, Customers.findByPk, require.
    rewrite Hnone. reflexivity.
  - split.
    + intros now q. destruct q; simpl;
        unfold updateMaintenance, startMaintenance, completeMaintenance,
          controller, bind, Maintenances.findByPk_include_vehicle, require;
        rewrite Hnone; reflexivity.
    + unfold deleteMaintenance, controller, bind, Maintenances.findByPk,
        require.
      rewrite Hnone. reflexivity.
Qed.

Lemma missing_row_is_404_witness :
  cancelRental "r9" None Scenario.db_active
  = (Scenario.db_active, failure 404 "Alquiler no encontrado")
  /\ updateMileage "v9" 5 Scenario.db0
     = (Scenario.db0, failure 404 "Vehículo no encontrado")
  /\ deleteCustomer "c9" Scenario.db0
     = (Scenario.db0, failure 404 "Cliente no encontrado")
  /\ deleteMaintenance "m9" Scenario.db_maintenance
     = (Scenario.db_maintenance, failure 404 "Mantenimiento no encontrado").
Proof.
  split; [|split; [|split]].
  - destruct (missing_row_is_404 Scenario.db_active "r9") as [H _].
    destruct (H eq_refl) as (_ & Hc & _). apply Hc.
  - destruct (missing_row_is_404 Scenario.db0 "v9") as (_ & H & _).
    destruct (H eq_refl) as (_ & Hm & _). apply Hm.
  - destruct (missing_row_is_404 Scenario.db0 "c9") as (_ & _ & H & _).
    apply H. reflexivity.
  - destruct (missing_row_is_404 Scenario.db_maintenance "m9")
      as (_ & _ & _ & H).
    destruct (H eq_refl) as [_ Hd]. exact Hd.
Defined.

(** ** The amounts of a rental stay balanced *)









(** ** updateRental *)

(** X8. [updateRental] refuses a completed or cancelled rental with a 400
    and writes nothing; in every case it leaves the customers, vehicles and
    maintenances as they are, and every rental other than the one
    addressed. *)
Theorem updateRental_frame
    (db : DB) (id : string) (updateData : list Rental.assign) :
  (forall r, rentals db !! id = Some r ->
             is_terminal (Rental.rental_status r) = true ->
             updateRental id updateData db
             = (db, failure 400
                      "No se puede modificar un alquiler completado o cancelado"))
  /\ customers (fst (updateRental id updateData db)) = customers db
  /\ vehicles (fst (updateRental id updateData db)) = vehicles db
  /\ maintenances (fst (updateRental id updateData db)) = maintenances db
  /\ (forall k, k <> id ->
        rentals (fst (updateRental id updateData db)) !! k
        = rentals db !! k).
Proof.
  split.
  - intros r Hr Ht. unfold updateRental. unfold_handlers.
    rewrite Hr. simpl. rewrite Ht. reflexivity.
  - unfold updateRental. unfold_handlers.
    destruct (rentals db !! id) as [r|] eqn:Hr; simpl;
      [|repeat split; reflexivity].
    destruct (is_terminal (Rental.rental_status r)); simpl;
      [repeat split; reflexivity|].
    destruct (forallb Rental.valid updateData); simpl;
      [|repeat split; reflexivity].
    repeat split; try reflexivity.
    intros k Hne. apply lookup_alter_ne. congruence.
Qed.

Lemma updateRental_frame_witness :
  updateRental "r1" [Rental.Set_rental_status reserved] Scenario.db_completed
  = (Scenario.db_completed,
     failure 400 "No se puede modificar un alquiler completado o cancelado").
Proof.
  destruct (updateRental_frame Scenario.db_completed "r1"
              [Rental.Set_rental_status reserved]) as [Hterm _].
  assert (Hr : exists r, rentals Scenario.db_completed !! "r1" = Some r
                         /\ is_terminal (Rental.rental_status r) = true).
  { eexists. split; vm_compute; reflexivity. }
  destruct Hr as (r & Hr & Ht). exact (Hterm r Hr Ht).
Defined.

(** ** getAvailableVehicles *)

Lemma free_on_spec (db : DB) (s e : Z) (id : string) (v : Vehicle.t) :
  free_on db s e id v = true
  <-> Vehicle.is_active v = true
      /\ Vehicle.status v = available
      /\ ~ (exists k r,
              rentals db !! k = Some r
              /\ Rental.vehicle_id r = id
              /\ holds_vehicle r
              /\ (starts_inside s e r \/ ends_inside s e r \/ spans s e r)).
Proof.
  unfold free_on, vehicle_available.
  rewrite !andb_true_iff, bool_decide_eq_true, Nat.eqb_eq.
  assert (Hcount : count_where (conflicting id s e) (rentals db) = 0%nat
                   <-> (0 <? count_where (conflicting id s e) (rentals db))%nat
                       = false).
  { rewrite Nat.ltb_ge. lia. }
  rewrite Hcount, count_where_none.
  split.
  - intros [[Ha Hs] Hnone]. split; [exact Ha|]. split; [exact Hs|].
    intros (k & r & Hk & Hv & Hh & Hd).
    specialize (Hnone k r Hk). unfold conflicting in Hnone.
    apply in_active_states_holds in Hh. apply dates_overlap_spec in Hd.
    rewrite Hh, Hd, (bool_decide_eq_true_2 _ Hv) in Hnone. discriminate.
  - intros (Ha & Hs & Hno). split; [split; assumption|].
    intros k r Hk. destruct (conflicting id s e r) eqn:Hc; [|reflexivity].
    exfalso. apply Hno. exists k, r. split; [exact Hk|].
    unfold conflicting in Hc.
    apply andb_true_iff in Hc as [Hc Hd].
    apply andb_true_iff in Hc as [Hv Hh].
    apply bool_decide_eq_true in Hv.
    apply in_active_states_holds in Hh. apply dates_overlap_spec in Hd.
    auto.
Qed.

(** X9. Without both dates [getAvailableVehicles] answers 400.  With them
    it lists exactly the vehicles that are active, available and have no
    reserved, confirmed or active rental overlapping the dates; and a
    [createRental] for a listed vehicle and the same dates, made by an
    existing active customer, is never answered 400. *)
Theorem getAvailableVehicles_lists_free_vehicles
    (db : DB) (start_date end_date : option Z) :
  (start_date = None \/ end_date = None ->
     getAvailableVehicles start_date end_date db
     = available_error (failure 400 "Fechas de inicio y fin son requeridas"))
  /\ (forall s e,
        start_date = Some s -> end_date = Some e ->
        exists vs,
          getAvailableVehicles start_date end_date db = available_vehicles vs
          /\ (forall id v,
                vs !! id = Some v
                <-> vehicles db !! id = Some v
                    /\ Vehicle.is_active v = true
                    /\ Vehicle.status v = available
                    /\ ~ (exists k r,
                            rentals db !! k = Some r
                            /\ Rental.vehicle_id r = id
                            /\ holds_vehicle r
                            /\ (starts_inside s e r \/ ends_inside s e r
                                \/ spans s e r)))
          /\ (forall id v new_id body,
                vs !! id = Some v ->
                RentalBody.vehicle_id body = id ->
                RentalBody.start_date body = s ->
                RentalBody.end_date body = e ->
                customer_ok db body ->
                code (snd (createRental new_id body db)) <> 400)).
Proof.
  split.
  - intros [-> | ->]; [reflexivity|]. destruct start_date; reflexivity.
  - intros s e -> ->. eexists. split; [reflexivity|].
    assert (Hlist : forall id v,
              filter (fun kv : string * Vehicle.t =>
                        free_on db s e kv.1 kv.2 = true) (vehicles db) !! id
              = Some v
              <-> vehicles db !! id = Some v /\ free_on db s e id v = true).
    { intros id v. apply map_lookup_filter_Some. }
    split.
    + intros id v. rewrite Hlist, free_on_spec. tauto.
    + intros id v new_id body Hin Hid Hs He (c & Hc & Hact).
      apply Hlist in Hin as [Hv Hfree].
      unfold free_on in Hfree. apply andb_true_iff in Hfree as [Hav Hcount].
      apply Nat.eqb_eq in Hcount.
      unfold createRental. unfold_handlers.
      rewrite Hc. simpl. rewrite Hact. simpl.
      rewrite Hid, Hv. simpl. rewrite Hav. simpl.
      rewrite Hs, He, Hcount. simpl.
      run_handler; discriminate.
Qed.

Lemma getAvailableVehicles_lists_free_vehicles_witness :
  getAvailableVehicles (Some (Scenario.day 19725)) None Scenario.db0
  = available_error (failure 400 "Fechas de inicio y fin son requeridas")
  /\ getAvailableVehicles (Some (Scenario.day 19725))
       (Some (Scenario.day 19726)) Scenario.db0
     = available_vehicles {[ "v1" := Scenario.V ]}
  /\ getAvailableVehicles (Some (Scenario.day 19725))
       (Some (Scenario.day 19726)) Scenario.db_reserved_available
     = available_vehicles ∅.
Proof.
  destruct (getAvailableVehicles_lists_free_vehicles Scenario.db0
              (Some (Scenario.day 19725)) None) as [Herr _].
  split; [apply Herr; right; reflexivity|].
  split.
  - destruct (getAvailableVehicles_lists_free_vehicles Scenario.db0
                (Some (Scenario.day 19725)) (Some (Scenario.day 19726)))
      as [_ Hok].
    destruct (Hok _ _ eq_refl eq_refl) as (vs & -> & Hvs & _).
    f_equal. apply map_eq. intros id.
    destruct (vs !! id) as [v|] eqn:Hid.
    + apply Hvs in Hid as (Hv & _). symmetry. exact Hv.
    + destruct (({[ "v1" := Scenario.V ]} : gmap string Vehicle.t) !! id)
        as [v|] eqn:Hv; [|reflexivity].
      assert (Hin : vs !! id = Some v).
      { apply Hvs. split; [exact Hv|].
        apply lookup_singleton_Some in Hv as [_ <-].
        split; [reflexivity|]. split; [reflexivity|].
        intros (k & r & Hk & _). simpl in Hk. rewrite lookup_empty in Hk.
        discriminate. }
      congruence.
  - destruct (getAvailableVehicles_lists_free_vehicles
                Scenario.db_reserved_available
                (Some (Scenario.day 19725)) (Some (Scenario.day 19726)))
      as [_ Hok].
    destruct (Hok _ _ eq_refl eq_refl) as (vs & -> & Hvs & _).
    f_equal. apply map_eq. intros id. rewrite lookup_empty.
    destruct (vs !! id) as [v|] eqn:Hid; [|reflexivity].
    apply Hvs in Hid as (Hv & _ & _ & Hno).
    exfalso. apply Hno.
    simpl in Hv. apply lookup_singleton_Some in Hv as [<- _].
    exists "r1", (new_rental Scenario.first_request Scenario.V).
    split; [vm_compute; reflexivity|]. split; [reflexivity|].
    split; [left; reflexivity|].
    right. right. split; vm_compute; discriminate.
Defined.

(** ** Soft-deleted rows are out of use *)

(** X10. After a [deleteVehicle] answered 200 the vehicle can neither be
    rented nor sent to maintenance: [createRental] for it is answered 400
    and [createMaintenance] for it is answered with the 400 of its vehicle
    check, both without writing.  After a [deleteCustomer] answered 200
    every [createRental] for that customer is answered with the 400 of the
    customer check. *)
Theorem soft_deleted_rows_are_refused (db : DB) (id : string) :
  (code (snd (deleteVehicle id db)) = 200 ->
     let db' := fst (deleteVehicle id db) in
     (forall new_id body,
        RentalBody.vehicle_id body = id ->
        fst (createRental new_id body db') = db'
        /\ code (snd (createRental new_id body db')) = 400)
     /\ (forall new_id body,
           MaintenanceBody.vehicle_id body = id ->
           createMaintenance new_id body db'
           = (db', failure 400 "Vehículo no encontrado o inactivo")))
  /\ (code (snd (deleteCustomer id db)) = 200 ->
        let db' := fst (deleteCustomer id db) in
        forall new_id body,
          RentalBody.customer_id body = id ->
          createRental new_id body db'
          = (db', failure 400 "Cliente no encontrado o inactivo")).
Proof.
  split.
  - intros Hcode db'.
    assert (Hrow : exists v', vehicles db' !! id = Some v'
                              /\ Vehicle.is_active v' = false).
    { subst db'. revert Hcode. unfold deleteVehicle. unfold_handlers.
      destruct (vehicles db !! id) as [v|] eqn:Hv; simpl; [|discriminate].
      destruct (0 <? count_where _ (rentals db))%nat; simpl; [discriminate|].
      intros _. rewrite (alter_Some _ _ _ v Hv).
      eexists. split; [apply lookup_insert_eq | reflexivity]. }
    destruct Hrow as (v' & Hv' & Hoff). clearbody db'.
    split.
    + intros new_id body Hid.
      unfold createRental, controller, bind, Customers.findByPk,
        Vehicles.findByPk, require.
      destruct (customers db' !! RentalBody.customer_id body) as [c|];
        simpl; [|split; reflexivity].
      destruct (Customer.is_active c); simpl; [|split; reflexivity].
      rewrite Hid, Hv'. simpl.
      unfold vehicle_available. rewrite Hoff. simpl. split; reflexivity.
    + intros new_id body Hid.
      unfold createMaintenance, controller, bind, Vehicles.findByPk, require.
      cbv beta. rewrite Hid, Hv'. simpl. rewrite Hoff. reflexivity.
  - intros Hcode db'.
    assert (Hrow : exists c', customers db' !! id = Some c'
                              /\ Customer.is_active c' = false).
    { subst db'. revert Hcode. unfold deleteCustomer. unfold_handlers.
      destruct (customers db !! id) as [c|] eqn:Hc; simpl; [|discriminate].
      destruct (0 <? count_where _ (rentals db))%nat; simpl; [discriminate|].
      intros _. rewrite (alter_Some _ _ _ c Hc).
      eexists. split; [apply lookup_insert_eq | reflexivity]. }
    destruct Hrow as (c' & Hc' & Hoff). clearbody db'.
    intros new_id body Hid.
    unfold createRental, controller, bind, Customers.findByPk, require.
    cbv beta. rewrite Hid, Hc'. simpl. rewrite Hoff. reflexivity.
Qed.

Lemma soft_deleted_rows_are_refused_witness :
  createMaintenance "m1" (Scenario.maintenance_request None None)
    (fst (deleteVehicle "v1" Scenario.db0))
  = (fst (deleteVehicle "v1" Scenario.db0),
     failure 400 "Vehículo no encontrado o inactivo")
  /\ createRental "r1" Scenario.first_request
       (fst (deleteCustomer "c1" Scenario.db0))
     = (fst (deleteCustomer "c1" Scenario.db0),
        failure 400 "Cliente no encontrado o inactivo").
Proof.
  destruct (soft_deleted_rows_are_refused Scenario.db0 "v1") as [Hv _].
  destruct (soft_deleted_rows_are_refused Scenario.db0 "c1") as [_ Hc].
  split.
  - destruct (Hv eq_refl) as [_ Hm]. apply Hm. reflexivity.
  - apply (Hc eq_refl). reflexivity.
Defined.

(** ** The maintenance life cycle *)










(** ** deleteMaintenance *)

(** X14. [deleteMaintenance] refuses a completed record with a 400 and
    writes nothing; any other record is removed, and nothing else changes:
    the other records and all vehicles are as before, so the vehicle of a
    deleted record in progress stays in maintenance. *)
Theorem deleteMaintenance_removes
    (db : DB) (id : string) (m : Maintenance.t) :
  maintenances db !! id = Some m ->
  (Maintenance.status m = m_completed ->
     deleteMaintenance id db
     = (db, failure 400 "No se puede eliminar un mantenimiento completado"))
  /\ (Maintenance.status m <> m_completed ->
      snd (deleteMaintenance id db)
      = ok 200 "Mantenimiento eliminado exitosamente" no_data
      /\ maintenances (fst (deleteMaintenance id db)) !! id = None
      /\ (forall k, k <> id ->
            maintenances (fst (deleteMaintenance id db)) !! k
            = maintenances db !! k)
      /\ vehicles (fst (deleteMaintenance id db)) = vehicles db
      /\ rentals (fst (deleteMaintenance id db)) = rentals db).
Proof.
  intros Hm.
  unfold deleteMaintenance, controller, bind, Maintenances.findByPk, require,
    reject_if, Maintenances_destroy, ret, send.
  rewrite Hm. simpl. split.
  - intros ->. reflexivity.
  - intros Hst.
    destruct (bool_decide (Maintenance.status m = m_completed)) eqn:Hc;
      [apply bool_decide_eq_true in Hc; contradiction|].
    simpl. split; [reflexivity|]. split; [apply lookup_delete_eq|].
    split; [|split; reflexivity].
    intros k Hne. apply lookup_delete_ne. congruence.
Qed.

Lemma deleteMaintenance_removes_witness :
  maintenances (fst (deleteMaintenance "m1" Scenario.db_maintenance)) !! "m1"
  = None
  /\ vehicles (fst (deleteMaintenance "m1"
                      (fst (startMaintenance (Scenario.day 19729) "m1"
                              (Some 1000) Scenario.db_maintenance)))) !! "v1"
     = Some (Vehicle.set (Vehicle.Set_status in_maintenance) Scenario.V).
Proof.
  split.
  - destruct (deleteMaintenance_removes Scenario.db_maintenance "m1"
                (new_maintenance (Scenario.maintenance_request None None))
                eq_refl) as [_ Hyes].
    destruct (Hyes ltac:(discriminate)) as (_ & Hgone & _). exact Hgone.
  - assert (Hrow : exists m1,
              maintenances
                (fst (startMaintenance (Scenario.day 19729) "m1" (Some 1000)
                        Scenario.db_maintenance)) !! "m1" = Some m1
              /\ Maintenance.status m1 <> m_completed).
    { eexists. split; [vm_compute; reflexivity | discriminate]. }
    destruct Hrow as (m1 & Hm1 & Hst).
    destruct (deleteMaintenance_removes _ "m1" m1 Hm1) as [_ Hyes].
    destruct (Hyes Hst) as (_ & _ & _ & Hveh & _).
    rewrite Hveh. vm_compute. reflexivity.
Defined.

(** ** The beforeUpdate hook over time *)

(** X15. Running the hook of Maintenance at some time and again at the same
    or a later time gives the record that the later run alone gives; in
    particular the hook is idempotent. *)
Theorem beforeUpdate_absorbs_earlier_run
    (now now' : Z) (m : Maintenance.t) :
  now <= now' ->
  Maintenances.beforeUpdate now' (Maintenances.beforeUpdate now m)
  = Maintenances.beforeUpdate now' m.
Proof.
  intros Hle. unfold Maintenances.beforeUpdate.
  destruct (Maintenance.completed_date m) as [d|] eqn:Hdone.
  - simpl. rewrite Hdone. reflexivity.
  - destruct (Maintenance.scheduled_date m <? now) eqn:Hpast;
      destruct (bool_decide (Maintenance.status m = m_scheduled)) eqn:Hst;
      simpl; rewrite ?Hdone, ?Hpast, ?Hst; simpl; try reflexivity.
    + apply Z.ltb_lt in Hpast.
      assert (Hpast' : (Maintenance.scheduled_date m <? now') = true)
        by (apply Z.ltb_lt; lia).
      rewrite Hpast'. reflexivity.
Qed.

Lemma beforeUpdate_absorbs_earlier_run_witness :
  Maintenances.beforeUpdate (Scenario.day 19730)
    (Maintenances.beforeUpdate (Scenario.day 19729)
       (new_maintenance (Scenario.maintenance_request None None)))
  = Maintenances.beforeUpdate (Scenario.day 19730)
      (new_maintenance (Scenario.maintenance_request None None)).
Proof.
  apply beforeUpdate_absorbs_earlier_run. vm_compute. discriminate.
Defined.

(** ** Overdue records *)





(** ** getRentalStats *)

Lemma count_where_empty {R} (w : R -> bool) :
  count_where w (∅ : gmap string R) = 0%nat.
Proof. unfold count_where. rewrite map_filter_empty. apply map_size_empty. Qed.

Lemma count_where_insert {R} (w : R -> bool) (t : gmap string R)
    (k : string) (x : R) :
  t !! k = None ->
  count_where w (<[k := x]> t)
  = ((if w x then 1 else 0) + count_where w t)%nat.
Proof.
  intros Hk. unfold count_where. destruct (w x) eqn:Hw.
  - rewrite map_filter_insert_True by exact Hw.
    rewrite map_size_insert_None; [reflexivity|].
    apply map_lookup_filter_None. left. exact Hk.
  - rewrite map_filter_insert_False by (simpl; congruence).
    rewrite delete_id by exact Hk. reflexivity.
Qed.

Lemma count_where_parts {R} (w w1 w2 w3 : R -> bool) (t : gmap string R) :
  (forall r, w1 r = true -> w r = true /\ w2 r = false /\ w3 r = false) ->
  (forall r, w2 r = true -> w r = true /\ w3 r = false) ->
  (forall r, w3 r = true -> w r = true) ->
  (count_where w1 t + count_where w2 t + count_where w3 t
   <= count_where w t)%nat.
Proof.
  intros H1 H2 H3.
  induction t as [|k x t Hk IH] using map_ind.
  - rewrite !count_where_empty. lia.
  - rewrite !count_where_insert by exact Hk.
    specialize (H1 x). specialize (H2 x). specialize (H3 x).
    destruct (w1 x), (w2 x), (w3 x), (w x); intuition (try discriminate; lia).
Qed.

Lemma count_where_mono {R} (w1 w2 : R -> bool) (t : gmap string R) :
  (forall r, w1 r = true -> w2 r = true) ->
  (count_where w1 t <= count_where w2 t)%nat.
Proof.
  intros H.
  induction t as [|k x t Hk IH] using map_ind.
  - rewrite !count_where_empty. lia.
  - rewrite !count_where_insert by exact Hk.
    specialize (H x). destruct (w1 x), (w2 x); intuition (try discriminate; lia).
Qed.

(** X17. In the statistics of [getRentalStats] the active, completed and
    cancelled counts together never exceed the total; the overdue count,
    which ignores the date filter, never exceeds the active count when no
    date filter is given; and every rental counted as overdue is overdue
    for the model's [isOverdue]. *)
Theorem getRentalStats_counts
    (now : Z) (start_date end_date : option Z) (db : DB) :
  let stats := getRentalStats now start_date end_date db in
  (activeRentals stats + completedRentals stats + cancelledRentals stats
   <= totalRentals stats)%nat
  /\ (start_date = None \/ end_date = None ->
      (overdueRentals stats <= activeRentals stats)%nat)
  /\ (forall k r, rentals db !! k = Some r ->
                  overdue_where now r = true ->
                  Rental_isOverdue now r = true).
Proof.
  simpl. split; [|split].
  - apply count_where_parts; intros r H; cbv beta in *;
      unfold has_status in *;
      apply andb_true_iff in H as [Hf Hs];
      apply bool_decide_eq_true in Hs; rewrite ?Hs, ?Hf; simpl;
      repeat split; try reflexivity; apply andb_false_r.
  - intros Hnone. apply count_where_mono. intros r H.
    unfold overdue_where in H. apply andb_true_iff in H as [Hs _].
    rewrite Hs.
    destruct Hnone as [-> | ->]; [reflexivity|].
    destruct start_date; reflexivity.
  - intros k r _ H. unfold overdue_where, has_status in H.
    apply andb_true_iff in H as [Hs Hd].
    apply bool_decide_eq_true in Hs.
    unfold Rental_isOverdue. rewrite Hs. exact Hd.
Qed.

Lemma getRentalStats_counts_witness :
  (overdueRentals (getRentalStats (Scenario.day 19729) None None
                     Scenario.db_active)
   <= activeRentals (getRentalStats (Scenario.day 19729) None None
                       Scenario.db_active))%nat
  /\ overdueRentals (getRentalStats (Scenario.day 19729) None None
                       Scenario.db_active) = 1%nat.
Proof.
  destruct (getRentalStats_counts (Scenario.day 19729) None None
              Scenario.db_active) as (_ & Hle & _).
  split; [apply Hle; left; reflexivity | vm_compute; reflexivity].
Defined.

(** ** Late fees of the model and of the controller *)

(** X18. [calculateLateFees] is 0 for a rental that is completed, cancelled
    or not past its end date.  For an active rental seen at the return
    date, it and the late fee of [completeRental] count the same late days
    (the started days after the end date), the model pricing each at the
    daily late fee (50 by default) and the controller at 1.5 times the
    daily rate. *)
Theorem late_fees_of_model_and_controller
    (today : Z) (dailyLateFee : option Q) (r : Rental.t) :
  (Rental_isOverdue today r = false ->
     Rental_calculateLateFees today dailyLateFee r = 0%Q)
  /\ (is_terminal (Rental.rental_status r) = true ->
      Rental_calculateLateFees today dailyLateFee r = 0%Q)
  /\ (Rental.rental_status r = active ->
      exists lateDays,
        0 <= lateDays
        /\ (Rental.end_date r < today ->
            ms_per_day * (lateDays - 1) < today - Rental.end_date r
                                        <= ms_per_day * lateDays)
        /\ (today <= Rental.end_date r -> lateDays = 0)
        /\ (Rental_calculateLateFees today dailyLateFee r
            == inject_Z lateDays * default 50 dailyLateFee)%Q
        /\ (late_fees today r
            == inject_Z lateDays * Rental.daily_rate r * (3 # 2))%Q).
Proof.
  split; [|split].
  - intros H. unfold Rental_calculateLateFees. rewrite H. reflexivity.
  - intros H. unfold Rental_calculateLateFees, Rental_isOverdue.
    rewrite H. reflexivity.
  - intros Hst.
    unfold Rental_calculateLateFees, Rental_isOverdue, late_fees.
    rewrite Hst. simpl.
    destruct (Rental.end_date r <? today) eqn:Hlate; simpl.
    + apply Z.ltb_lt in Hlate.
      exists (ceil_div (today - Rental.end_date r) ms_per_day).
      pose proof (ceil_div_positive (today - Rental.end_date r) ms_per_day
                    ms_per_day_pos ltac:(lia)).
      split; [lia|].
      split; [intros _; apply ceil_div_spec; exact ms_per_day_pos|].
      split; [lia|]. split; reflexivity.
    + apply Z.ltb_ge in Hlate. exists 0.
      split; [lia|]. split; [lia|]. split; [reflexivity|].
      split; [reflexivity|].
      rewrite !Qmult_0_l. reflexivity.
Qed.

Lemma late_fees_of_model_and_controller_witness :
  (Rental_calculateLateFees (Scenario.day 19729) None Scenario.active_rental
   == 100)%Q
  /\ (late_fees (Scenario.day 19729) Scenario.active_rental == 150)%Q.
Proof.
  destruct (late_fees_of_model_and_controller (Scenario.day 19729) None
              Scenario.active_rental) as (_ & _ & H).
  destruct (H eq_refl) as (lateDays & _ & Hdays & _ & Hmodel & Hctrl).
  assert (Hd : lateDays = 2).
  { assert (Hlate : Rental.end_date Scenario.active_rental
                    < Scenario.day 19729) by reflexivity.
    specialize (Hdays Hlate).
    change (Scenario.day 19729 - Rental.end_date Scenario.active_rental)
      with (2 * ms_per_day) in Hdays.
    pose proof ms_per_day_pos. nia. }
  subst lateDays. split.
  - rewrite Hmodel. reflexivity.
  - rewrite Hctrl. reflexivity.
Defined.

(** ** Overdue maintenances in the hook and in the queries *)

Lemma assign_all_keeps_status (values : list Maintenance.assign) :
  forallb keeps_status values = true ->
  forall m,
    Maintenance.status (assign_all Maintenance.set values m)
    = Maintenance.status m
    /\ Maintenance.completed_date (assign_all Maintenance.set values m)
       = Maintenance.completed_date m.
Proof.
  unfold assign_all.
  induction values as [|a values IH]; intros Hkeep m; [repeat split|].
  simpl in Hkeep. apply andb_true_iff in Hkeep as [Ha Hrest].
  simpl. destruct (IH Hrest (Maintenance.set a m)) as (-> & ->).
  destruct a; simpl in *; try discriminate; repeat split.
Qed.

(** X19. Once a maintenance is overdue it stays overdue under the hook:
    whatever the time and whatever accepted values an update sets, short of
    the status or a completion date, the record is still overdue
    afterwards, even when the update moves its scheduled date into the
    future. *)
Theorem overdue_is_sticky
    (now : Z) (values : list Maintenance.assign) (m : Maintenance.t) :
  Maintenance.status m = m_overdue ->
  Maintenance.completed_date m = None ->
  forallb keeps_status values = true ->
  Maintenance.status
    (Maintenances.beforeUpdate now (assign_all Maintenance.set values m))
  = m_overdue.
Proof.
  intros Hst Hdone Hkeep.
  destruct (assign_all_keeps_status values Hkeep m) as (Hs & Hc).
  unfold Maintenances.beforeUpdate. rewrite Hc, Hdone, Hs, Hst.
  simpl. rewrite andb_false_r. rewrite Hs. exact Hst.
Qed.

Lemma overdue_is_sticky_witness :
  Maintenance.status
    (Maintenances.beforeUpdate (Scenario.day 19729)
       (assign_all Maintenance.set
          [Maintenance.Set_scheduled_date (Scenario.day 19800)]
          (Maintenance.set (Maintenance.Set_status m_overdue)
             (new_maintenance (Scenario.maintenance_request None None)))))
  = m_overdue.
Proof.
  apply overdue_is_sticky; reflexivity.
Defined.

(** X20. The overdue query of the statistics selects scheduled and in
    progress records with a past date.  A scheduled record with a past date
    is selected by it and is overdue for [isOverdue]; after the hook has
    turned it to overdue it is still overdue for [isOverdue] but the query
    no longer selects it. *)
Theorem hook_hides_overdue_from_query
    (now now' : Z) (m : Maintenance.t) :
  Maintenance.status m = m_scheduled ->
  Maintenance.completed_date m = None ->
  Maintenance.scheduled_date m < now ->
  now <= now' ->
  overdue_maintenance_where now' m = true
  /\ Maintenance_isOverdue now' m = true
  /\ Maintenance.status (Maintenances.beforeUpdate now m) = m_overdue
  /\ Maintenance_isOverdue now' (Maintenances.beforeUpdate now m) = true
  /\ overdue_maintenance_where now' (Maintenances.beforeUpdate now m) = false.
Proof.
  intros Hst Hdone Hpast Hle.
  assert (H1 : (Maintenance.scheduled_date m <? now) = true)
    by (apply Z.ltb_lt; exact Hpast).
  assert (H2 : (Maintenance.scheduled_date m <? now') = true)
    by (apply Z.ltb_lt; lia).
  unfold overdue_maintenance_where, Maintenance_isOverdue,
    Maintenances.beforeUpdate.
  rewrite Hdone, H1, Hst. simpl. rewrite H2. repeat split.
Qed.

Lemma hook_hides_overdue_from_query_witness :
  overdue_maintenance_where (Scenario.day 19730)
    (new_maintenance (Scenario.maintenance_request None None)) = true
  /\ overdue_maintenance_where (Scenario.day 19730)
       (Maintenances.beforeUpdate (Scenario.day 19729)
          (new_maintenance (Scenario.maintenance_request None None)))
     = false.
Proof.
  destruct (hook_hides_overdue_from_query (Scenario.day 19729)
              (Scenario.day 19730)
              (new_maintenance (Scenario.maintenance_request None None))
              eq_refl eq_refl eq_refl)
    as (Hbefore & _ & _ & _ & Hafter).
  - vm_compute. discriminate.
  - split; [exact Hbefore | exact Hafter].
Defined.

(** ** The token of the Authorization header *)

Lemma split_space_no_space (s : string) :
  no_space s = true -> split_space s = [s].
Proof.
  induction s as [|c rest IH]; intros Hs; [reflexivity|].
  simpl in Hs. apply andb_true_iff in Hs as [Hc Hrest].
  apply negb_true_iff in Hc. simpl. rewrite Hc, (IH Hrest). reflexivity.
Qed.

(** X21. From a header [Bearer <token>] whose token is not empty and has no
    space, [authenticateToken] reads exactly the token.  A missing header,
    a header without a second piece, and a header with two spaces after
    [Bearer] yield no token, which is answered 401. *)
Theorem bearer_token_reads_token (token : string) :
  token <> EmptyString ->
  no_space token = true ->
  bearer_token (Some ("Bearer " ++ token)%string) = Some token
  /\ bearer_token None = None
  /\ bearer_token (Some "Bearer") = None
  /\ bearer_token (Some ("Bearer  " ++ token)%string) = None
  /\ (forall verify users,
        authenticateToken verify users (Some ("Bearer  " ++ token)%string)
        = inl (failure 401 "Token de acceso requerido")).
Proof.
  intros Hne Hs.
  assert (H1 : bearer_token (Some ("Bearer " ++ token)%string) = Some token).
  { unfold bearer_token. simpl.
    change (String.append EmptyString token) with token.
    rewrite (split_space_no_space token Hs).
    simpl. destruct token; [contradiction | reflexivity]. }
  assert (H2 : bearer_token (Some ("Bearer  " ++ token)%string) = None).
  { unfold bearer_token. simpl. reflexivity. }
  split; [exact H1|]. split; [reflexivity|]. split; [reflexivity|].
  split; [exact H2|].
  intros verify users. unfold authenticateToken. rewrite H2. reflexivity.
Qed.

Lemma bearer_token_reads_token_witness :
  bearer_token (Some "Bearer abc.def.ghi") = Some "abc.def.ghi".
Proof.
  destruct (bearer_token_reads_token "abc.def.ghi") as [H _];
    [discriminate | reflexivity | exact H].
Defined.

(** ** The guarded vehicle routes *)

Section Gate.
Variable verify : string -> jwt_outcome.
Variable users : gmap string User.t.
Variable isUUID : string -> bool.

Lemma includes_fleet_roles (role : string) :
  includes ["admin"; "gestor_flota"] role = true
  <-> role = "admin" \/ role = "gestor_flota".
Proof.
  unfold includes. simpl. rewrite !orb_true_iff, !String.eqb_eq.
  intuition discriminate.
Qed.

Lemma gate_passes (authHeader : option string) (user : User.t) :
  authenticateToken verify users authHeader = inr user ->
  requireRole ["admin"; "gestor_flota"] (Some user) = None ->
  fleet_staff verify users authHeader.
Proof.
  unfold authenticateToken, requireRole, fleet_staff.
  destruct (bearer_token authHeader) as [token|]; [|discriminate].
  destruct (verify token) as [[id|]| | |] eqn:Hverify;
    cbn [mbind option_bind]; try discriminate.
  destruct (users !! id) as [u|] eqn:Hu; [|discriminate].
  destruct (User.is_active u) eqn:Hact; [|discriminate].
  intros Huser Hrole. injection Huser as <-.
  destruct (includes ["admin"; "gestor_flota"] (User.role u)) eqn:Hinc;
    [|discriminate].
  exists token, id, u. repeat split; try assumption.
  apply includes_fleet_roles. exact Hinc.
Qed.

Lemma gate_opens (authHeader : option string) :
  fleet_staff verify users authHeader ->
  exists user,
    authenticateToken verify users authHeader = inr user
    /\ requireRole ["admin"; "gestor_flota"] (Some user) = None.
Proof.
  intros (token & id & u & Htoken & Hverify & Hu & Hact & Hrole).
  exists u. unfold authenticateToken, requireRole.
  rewrite Htoken, Hverify. cbn [mbind option_bind]. rewrite Hu, Hact.
  split; [reflexivity|].
  apply includes_fleet_roles in Hrole. rewrite Hrole. reflexivity.
Qed.

(** X22. The routes [PATCH /api/vehicles/:id/mileage] and
    [DELETE /api/vehicles/:id] write nothing and answer 401, 403 or 500
    unless the header carries a token that verifies to an existing, active
    user whose role is admin or gestor_flota.  For such a caller and a
    well formed request the answer is that of the controller. *)
Theorem vehicle_routes_are_guarded
    (authHeader : option string) (id : string) (current_mileage : option Z)
    (db : DB) :
  (~ fleet_staff verify users authHeader ->
     let patched :=
       patch_vehicle_mileage verify users isUUID authHeader id
         current_mileage db in
     let deleted := delete_vehicle verify users isUUID authHeader id db in
     fst patched = db /\ fst deleted = db
     /\ snd patched = snd deleted
     /\ (code (snd patched) = 401 \/ code (snd patched) = 403
         \/ code (snd patched) = 500))
  /\ (fleet_staff verify users authHeader ->
      isUUID id = true ->
      (forall m, current_mileage = Some m -> 0 <= m ->
         patch_vehicle_mileage verify users isUUID authHeader id
           current_mileage db
         = updateMileage id m db)
      /\ delete_vehicle verify users isUUID authHeader id db
         = deleteVehicle id db).
Proof.
  split.
  - intros Hno.
    pose proof (gate_passes authHeader) as Hpass.
    unfold patch_vehicle_mileage, delete_vehicle.
    destruct (authenticateToken verify users authHeader) as [answer|user]
      eqn:Hauth.
    + simpl. split; [reflexivity|]. split; [reflexivity|].
      split; [reflexivity|].
      revert Hauth. unfold authenticateToken.
      destruct (bearer_token authHeader) as [token|];
        [|intros [= <-]; left; reflexivity].
      destruct (verify token) as [userId| | |].
      * destruct (userId ≫= (fun id => users !! id)) as [u|];
          [destruct (User.is_active u); [discriminate|]|];
          intros [= <-]; left; reflexivity.
      * intros [= <-]. right. left. reflexivity.
      * intros [= <-]. right. left. reflexivity.
      * intros [= <-]. right. right. reflexivity.
    + destruct (requireRole ["admin"; "gestor_flota"] (Some user))
        as [answer|] eqn:Hrole.
      * simpl. split; [reflexivity|]. split; [reflexivity|].
        split; [reflexivity|].
        revert Hrole. unfold requireRole.
        destruct (negb _); [|discriminate].
        intros [= <-]. right. left. reflexivity.
      * exfalso. apply Hno. apply (Hpass user); [reflexivity | exact Hrole].
  - intros Hstaff Huuid.
    destruct (gate_opens authHeader Hstaff) as (user & Hauth & Hrole).
    unfold patch_vehicle_mileage, delete_vehicle.
    rewrite Hauth, Hrole, Huuid. split; [|reflexivity].
    intros m -> Hm. apply Z.leb_le in Hm. rewrite Hm. reflexivity.
Qed.
End Gate.

Lemma vehicle_routes_are_guarded_witness :
  let verify token :=
    if String.eqb token "t-admin" then Decoded (Some "u1")
    else if String.eqb token "t-cliente" then Decoded (Some "u2")
    else JsonWebTokenError in
  let users : gmap string User.t :=
    {[ "u1" := {| User.role := "admin"; User.is_active := true |};
       "u2" := {| User.role := "cliente"; User.is_active := true |} ]} in
  patch_vehicle_mileage verify users (fun _ => true)
    (Some "Bearer t-cliente") "v1" (Some 1500) Scenario.db0
  = (Scenario.db0,
     failure 403 "No tienes permisos para realizar esta acción")
  /\ patch_vehicle_mileage verify users (fun _ => true)
       (Some "Bearer t-admin") "v1" (Some 1500) Scenario.db0
     = updateMileage "v1" 1500 Scenario.db0.
Proof.
  intros verify users.
  destruct (vehicle_routes_are_guarded verify users (fun _ => true)
              (Some "Bearer t-cliente") "v1" (Some 1500) Scenario.db0)
    as [Hno _].
  destruct (vehicle_routes_are_guarded verify users (fun _ => true)
              (Some "Bearer t-admin") "v1" (Some 1500) Scenario.db0)
    as [_ Hyes].
  split.
  - assert (Hout : ~ fleet_staff verify users (Some "Bearer t-cliente")).
    { intros (token & id & u & Htoken & Hverify & Hu & _ & Hrole).
      vm_compute in Htoken. injection Htoken as <-.
      vm_compute in Hverify. injection Hverify as <-.
      vm_compute in Hu. injection Hu as <-.
      destruct Hrole; discriminate. }
    destruct (Hno Hout) as (Hdb & _ & _ & _).
    apply injective_projections; [exact Hdb | reflexivity].
  - assert (Hin : fleet_staff verify users (Some "Bearer t-admin")).
    { exists "t-admin", "u1",
        {| User.role := "admin"; User.is_active := true |}.
      repeat split; try reflexivity. left. reflexivity. }
    destruct (Hyes Hin eq_refl) as [Hpatch _].
    apply (Hpatch 1500); [reflexivity | lia].
Defined.

(** ** Answers and writes *)

Ltac envelope_leaf :=
  first
    [ left; split; [reflexivity | first [left; reflexivity | right; reflexivity]]
    | right; split; [reflexivity|]; split; [reflexivity|];
      first [ left; reflexivity
            | right; left; reflexivity
            | right; right; reflexivity ] ].

(** X23. In every answer of the rental, vehicle, customer and maintenance
    controllers the success flag agrees with the status code: a success
    has code 200 or 201, a failure has code 400, 404 or 500 and carries no
    data. *)
Theorem answers_are_well_formed (db : DB) :
  (forall q, envelope_ok (snd (serve q db)))
  /\ (forall now id q, envelope_ok (snd (serve_update now id q db)))
  /\ (forall id, envelope_ok (snd (deleteVehicle id db)))
  /\ (forall id m, envelope_ok (snd (updateMileage id m db)))
  /\ (forall id values, envelope_ok (snd (updateVehicle id values db)))
  /\ (forall id, envelope_ok (snd (deleteCustomer id db)))
  /\ (forall id body, envelope_ok (snd (createMaintenance id body db)))
  /\ (forall id, envelope_ok (snd (deleteMaintenance id db))).
Proof.
  repeat split.
  - intros q. destruct q; simpl;
      [ unfold createRental | unfold updateRental | unfold startRental
      | unfold completeRental | unfold cancelRental ];
      unfold_handlers; run_handler; envelope_leaf.
  - intros now id q. destruct q; simpl;
      [ unfold updateMaintenance | unfold startMaintenance
      | unfold completeMaintenance ];
      unfold_maintenance; simpl; run_handler; envelope_leaf.
  - intros id. unfold deleteVehicle. unfold_handlers.
    run_handler; envelope_leaf.
  - intros id m. unfold updateMileage. unfold_handlers.
    run_handler; envelope_leaf.
  - intros id values. unfold updateVehicle. unfold_handlers.
    run_handler; envelope_leaf.
  - intros id. unfold deleteCustomer.
    unfold controller, bind, Customers.findByPk, Rentals.count, require,
      reject_if, Customers.update, update_in, ret, send. simpl.
    run_handler; envelope_leaf.
  - intros id body. unfold createMaintenance.
    unfold controller, bind, Vehicles.findByPk, Maintenances.findByPk,
      Maintenances.create, Vehicles.update, create_in, update_in, require,
      ret, send. simpl.
    run_handler; envelope_leaf.
  - intros id. unfold deleteMaintenance.
    unfold controller, bind, Maintenances.findByPk, Maintenances_destroy,
      require, reject_if, ret, send. simpl.
    run_handler; envelope_leaf.
Qed.

(** X24. A rental request that is not answered with a success writes
    nothing: whenever the answer of the rental API has [success: false]
    (400, 404 or 500), the database is the one before the request.  The
    stored vehicle mileages are assumed to satisfy the model's [min: 0]. *)
Theorem failed_rental_request_writes_nothing (q : rental_request) (db : DB) :
  mileages_valid db ->
  success (snd (serve q db)) = false ->
  fst (serve q db) = db.
Proof.
  intros Hm. destruct q; simpl;
    [ unfold createRental | unfold updateRental | unfold startRental
    | unfold completeRental | unfold cancelRental ];
    unfold_handlers; run_handler; intros H;
    try reflexivity; try discriminate.
  - simpl in Heqb0. unfold min_optZ in Heqb0. congruence.
  - exfalso. specialize (Hm _ _ Heqo0).
    rewrite andb_true_r in Heqb1. unfold min_Z in Heqb1.
    apply Z.leb_gt in Heqb1.
    destruct (CompleteBody.return_mileage body) as [m|]; simpl in *;
      [|lia].
    apply andb_prop in Heqb0 as [Hret _]. unfold min_Z in Hret.
    apply Z.leb_le in Hret.
    destruct (m =? 0); lia.
Qed.

Lemma failed_rental_request_writes_nothing_witness :
  fst (serve (CreateRental "r2" Scenario.second_request) Scenario.db_reserved)
  = Scenario.db_reserved.
Proof.
  apply failed_rental_request_writes_nothing.
  - intros k v Hk.
    assert (Hrows : vehicles Scenario.db_reserved
                    = {[ "v1" := Scenario.rented_vehicle ]})
      by (vm_compute; reflexivity).
    rewrite Hrows in Hk.
    apply lookup_singleton_Some in Hk as [_ <-].
    vm_compute. discriminate.
  - vm_compute. reflexivity.
Defined.
